(** * The netfilter TCP matcher of gVisor

    A shallow embedding of [pkg/sentry/socket/netfilter/tcp_matcher.go]:
    the matcher descriptor [tcpMarshaler] ([marshal], [unmarshal]) and the
    matcher instance [TCPMatcher] with its decision function [Match].

    Go values are embedded as follows.
    - [uint8], [uint16], [int]: [Z]; every conversion that truncates is
      written out ([to_byte], [to_uint16]).
    - [[]byte]: [list byte]; a slice that may be [nil] and is tested for it
      is a [buffer.View], [None] being [nil].
    - a call that may panic returns an [outcome].
    - [(stack.Matcher, error)]: a [result]. *)

From Stdlib Require Import ZArith List Bool String Lia.
From Stdlib Require Import Strings.Byte.
Import ListNotations.
Local Open Scope Z_scope.

(** ** Run-time outcomes *)

Inductive panic : Type :=
| IndexOutOfRange
| SliceBoundsOutOfRange
| TypeAssertionFailed.

Inductive outcome (A : Type) : Type :=
| Returned (a : A)
| Panics (p : panic).
Arguments Returned {A} a.
Arguments Panics {A} p.

Definition bind {A B : Type} (c : outcome A) (k : A -> outcome B) : outcome B :=
  match c with
  | Returned a => k a
  | Panics p => Panics p
  end.

Declare Scope outcome_scope.
Delimit Scope outcome_scope with outcome.
Notation "x <- c ;; k" := (bind c (fun x => k))
  (at level 61, c at next level, right associativity) : outcome_scope.
Notation "' pat <- c ;; k" := (bind c (fun x => match x with pat => k end))
  (at level 61, pat pattern, c at next level, right associativity) : outcome_scope.
Local Open Scope outcome_scope.

(** ** Bytes and fixed-width integers *)

Definition uint8_of (b : byte) : Z := Z.of_N (Byte.to_N b).

(** [byte(z)]: the low eight bits of [z]. *)
Definition to_byte (z : Z) : byte :=
  match Byte.of_N (Z.to_N (z mod 256)) with
  | Some b => b
  | None => x00
  end.

(** [uint16(z)]: the low sixteen bits of [z]. *)
Definition to_uint16 (z : Z) : Z := z mod 65536.

Definition is_uint8 (z : Z) : Prop := 0 <= z < 256.
Definition is_uint16 (z : Z) : Prop := 0 <= z < 65536.

(** [len(b)] as a Go [int]. *)
Definition len {A : Type} (b : list A) : Z := Z.of_nat (List.length b).

(** [b[i]] on a slice. *)
Definition index (b : list byte) (i : nat) : outcome byte :=
  match nth_error b i with
  | Some x => Returned x
  | None => Panics IndexOutOfRange
  end.

(** [b[lo:]] on a slice. *)
Definition slice_from (b : list byte) (lo : Z) : outcome (list byte) :=
  if (0 <=? lo) && (lo <=? len b)
  then Returned (skipn (Z.to_nat lo) b)
  else Panics SliceBoundsOutOfRange.

(** ** Package [encoding/binary]: the two byte orders *)

Module ByteOrder.

(** [LittleEndian.PutUint16]. *)
Definition PutUint16_le (v : Z) : list byte :=
  [to_byte v; to_byte (Z.shiftr v 8)].

(** [LittleEndian.Uint16]. *)
Definition Uint16_le (b : list byte) : outcome Z :=
  match b with
  | b0 :: b1 :: _ => Returned (Z.lor (uint8_of b0) (Z.shiftl (uint8_of b1) 8))
  | _ => Panics IndexOutOfRange
  end.

(** [BigEndian.Uint16]. *)
Definition Uint16_be (b : list byte) : outcome Z :=
  match b with
  | b0 :: b1 :: _ => Returned (Z.lor (uint8_of b1) (Z.shiftl (uint8_of b0) 8))
  | _ => Panics IndexOutOfRange
  end.

End ByteOrder.

(** ** Package [abi/linux]: the wire structures *)

Module linux.

(** Modelled from the spec: [linux.XTTCP] is declared outside the sources
    at hand.  The wire match block holds, in order, the four 16-bit port
    bounds and then the option, flag-mask, flag-compare and inverse-flags
    fields, one byte each as in [struct xt_tcp]. *)
Record XTTCP : Type := {
  SourcePortStart : Z;
  SourcePortEnd : Z;
  DestinationPortStart : Z;
  DestinationPortEnd : Z;
  Option : Z;
  FlagMask : Z;
  FlagCompare : Z;
  InverseFlags : Z
}.

(** Modelled from the spec: the logical size of the wire match block. *)
Definition SizeOfXTTCP : Z := 12.

(** Modelled from the spec: the size of the generic match header
    [linux.XTEntryMatch] (total length, name, revision). *)
Definition SizeOfXTEntryMatch : Z := 32.

(** Modelled from the spec: the width of the name field of the generic
    match header. *)
Definition XT_EXTENSION_MAXNAMELEN : nat := 29.

End linux.

(** ** Package [binary]: the wire codec *)

Module binary.

(** Modelled from the spec: [binary.Marshal] and [binary.Unmarshal] are
    outside the sources at hand.  The codec writes and reads the fields
    of a structure in declaration order, without padding, in the given
    byte order; [usermem.ByteOrder] is little-endian.  [Marshal_XTTCP] is
    [binary.Marshal] at the type [linux.XTTCP]. *)
Definition Marshal_XTTCP (buf : list byte) (x : linux.XTTCP) : list byte :=
  buf ++ ByteOrder.PutUint16_le (linux.SourcePortStart x)
      ++ ByteOrder.PutUint16_le (linux.SourcePortEnd x)
      ++ ByteOrder.PutUint16_le (linux.DestinationPortStart x)
      ++ ByteOrder.PutUint16_le (linux.DestinationPortEnd x)
      ++ [to_byte (linux.Option x); to_byte (linux.FlagMask x);
          to_byte (linux.FlagCompare x); to_byte (linux.InverseFlags x)].

(** The reader of the codec: the next [n] bytes and the rest. *)
Definition next (n : nat) (buf : list byte) : outcome (list byte * list byte) :=
  if (n <=? List.length buf)%nat
  then Returned (firstn n buf, skipn n buf)
  else Panics SliceBoundsOutOfRange.

Definition read_uint16 (buf : list byte) : outcome (Z * list byte) :=
  '(bs, rest) <- next 2 buf ;;
  v <- ByteOrder.Uint16_le bs ;;
  Returned (v, rest).

Definition read_uint8 (buf : list byte) : outcome (Z * list byte) :=
  '(bs, rest) <- next 1 buf ;;
  b <- index bs 0 ;;
  Returned (uint8_of b, rest).

(** Modelled from the spec: [binary.Unmarshal] at the type
    [linux.XTTCP], the inverse of [Marshal_XTTCP]; it panics when the
    bytes run out. *)
Definition Unmarshal_XTTCP (buf : list byte) : outcome linux.XTTCP :=
  '(sps, r) <- read_uint16 buf ;;
  '(spe, r) <- read_uint16 r ;;
  '(dps, r) <- read_uint16 r ;;
  '(dpe, r) <- read_uint16 r ;;
  '(opt, r) <- read_uint8 r ;;
  '(fm, r) <- read_uint8 r ;;
  '(fc, r) <- read_uint8 r ;;
  '(inv, _) <- read_uint8 r ;;
  Returned {| linux.SourcePortStart := sps;
              linux.SourcePortEnd := spe;
              linux.DestinationPortStart := dps;
              linux.DestinationPortEnd := dpe;
              linux.Option := opt;
              linux.FlagMask := fm;
              linux.FlagCompare := fc;
              linux.InverseFlags := inv |}.

(** Modelled from the spec: [binary.AlignUp], which rounds a length up to
    a multiple of a power of two. *)
Definition AlignUp (length align : Z) : Z :=
  Z.land (length + align - 1) (Z.lnot (align - 1)).

End binary.

(** ** Package [header]: network and transport headers *)

Module header.

(** Modelled from the spec: [header.TCPProtocolNumber] is outside the
    sources at hand; the protocol number of TCP (RFC 790). *)
Definition TCPProtocolNumber : Z := 6.

(** Modelled from the spec: [header.IPv4MinimumSize], the size of an IPv4
    header without options (RFC 791). *)
Definition IPv4MinimumSize : Z := 20.

(** Modelled from the spec: [header.TCPMinimumSize], the size of a TCP
    header without options (RFC 793). *)
Definition TCPMinimumSize : Z := 20.

(** [header.IPv4] and [header.TCP] are byte slices ([header.IPv4(hdr)],
    [header.TCP(hdr[length:])]).  Their accessor methods are outside the
    sources at hand; [Match] uses these five and is embedded over any
    implementation of them.  An accessor that indexes past the end of its
    slice panics. *)
Class Accessors : Type := {
  TransportProtocol : list byte -> outcome Z;
  FragmentOffset : list byte -> outcome Z;
  HeaderLength : list byte -> outcome Z;
  SourcePort : list byte -> outcome Z;
  DestinationPort : list byte -> outcome Z
}.

(** Modelled from the spec: [IPv4.TransportProtocol], the protocol field,
    byte 9 of the network header. *)
Definition wire_TransportProtocol (b : list byte) : outcome Z :=
  p <- index b 9 ;;
  Returned (uint8_of p).

(** Modelled from the spec: [IPv4.FragmentOffset], the offset of the
    fragment in bytes into the original payload: the 13-bit field of
    bytes 6 and 7, which counts units of eight bytes, times eight. *)
Definition wire_FragmentOffset (b : list byte) : outcome Z :=
  s <- slice_from b 6 ;;
  v <- ByteOrder.Uint16_be s ;;
  Returned (to_uint16 (Z.shiftl v 3)).

(** Modelled from the spec: [IPv4.HeaderLength], a [uint8]: the low half
    of byte 0, which counts 32-bit words, times four. *)
Definition wire_HeaderLength (b : list byte) : outcome Z :=
  x <- index b 0 ;;
  Returned ((Z.land (uint8_of x) 15 * 4) mod 256).

(** Modelled from the spec: [TCP.SourcePort], bytes 0 and 1 of the
    transport header. *)
Definition wire_SourcePort (b : list byte) : outcome Z :=
  ByteOrder.Uint16_be b.

(** Modelled from the spec: [TCP.DestinationPort], bytes 2 and 3 of the
    transport header. *)
Definition wire_DestinationPort (b : list byte) : outcome Z :=
  s <- slice_from b 2 ;;
  ByteOrder.Uint16_be s.

(** Modelled from the spec: the five accessors on the layout of RFC 791
    and RFC 793, every field in network byte order. *)
Definition wire : Accessors := {|
  TransportProtocol := wire_TransportProtocol;
  FragmentOffset := wire_FragmentOffset;
  HeaderLength := wire_HeaderLength;
  SourcePort := wire_SourcePort;
  DestinationPort := wire_DestinationPort
|}.

End header.

(** ** Package [buffer] *)

Module buffer.

(** A [buffer.View] is a byte slice; [None] is [nil]. *)
Definition View : Type := option (list byte).

Definition bytes (v : View) : list byte :=
  match v with
  | Some b => b
  | None => []
  end.

(** Modelled from the spec: [buffer.VectorisedView], the packet data,
    kept as the concatenation of its views. *)
Definition VectorisedView : Type := list byte.

(** Modelled from the spec: [VectorisedView.PullUp] is outside the sources
    at hand.  It makes the first [count] bytes of the packet data
    available as one slice, and reports absence ([ok = false], here
    [None]) when the data holds fewer than [count] bytes. *)
Definition PullUp (vv : VectorisedView) (count : Z) : option (list byte) :=
  if count <=? len vv
  then Some (firstn (Z.to_nat count) vv)
  else None.

End buffer.

(** ** Package [stack] *)

Module stack.

(** Modelled from the spec: the hook identities. *)
Inductive Hook : Type :=
| Prerouting
| Input
| Forward
| Output
| Postrouting.

Definition Hook_eqb (a b : Hook) : bool :=
  match a, b with
  | Prerouting, Prerouting
  | Input, Input
  | Forward, Forward
  | Output, Output
  | Postrouting, Postrouting => true
  | _, _ => false
  end.

(** Modelled from the spec: the packet view [stack.PacketBuffer], with the
    fields that [Match] reads. *)
Record PacketBuffer : Type := {
  Data : buffer.VectorisedView;
  NetworkHeader : buffer.View;
  TransportHeader : buffer.View
}.

Definition set_NetworkHeader (pkt : PacketBuffer) (hdr : list byte) : PacketBuffer :=
  {| Data := Data pkt;
     NetworkHeader := Some hdr;
     TransportHeader := TransportHeader pkt |}.

(** Modelled from the spec: [stack.IPHeaderFilter], with the field that
    [unmarshal] reads. *)
Record IPHeaderFilter : Type := {
  Protocol : Z
}.

End stack.

(** ** Package [netfilter]: the TCP matcher *)

Definition matcherNameTCP : string := "tcp".

(** [TCPMatcher]: four [uint16] port bounds. *)
Record TCPMatcher : Type := {
  sourcePortStart : Z;
  sourcePortEnd : Z;
  destinationPortStart : Z;
  destinationPortEnd : Z
}.

(** The values of the interface [stack.Matcher]: a [*TCPMatcher] or a
    matcher of another kind, of which only the name is kept. *)
Inductive Matcher : Type :=
| MatcherTCP (tm : TCPMatcher)
| MatcherOther (name : string).

(** An instance as the Go type has it: every bound is a [uint16]. *)
Definition valid (tm : TCPMatcher) : Prop :=
  is_uint16 (sourcePortStart tm) /\ is_uint16 (sourcePortEnd tm) /\
  is_uint16 (destinationPortStart tm) /\ is_uint16 (destinationPortEnd tm).

(** The three errors of [unmarshal]. *)
Inductive error : Type :=
| ErrInsufficientSize (n : Z)
| ErrUnsupportedFlags
| ErrProtocol (want : Z).

Inductive result : Type :=
| Ok (m : Matcher)
| Err (e : error).

(** Modelled from the spec: [marshalEntryMatch] is outside the sources at
    hand.  It prefixes the match block with the generic match header (the
    total length as a 16-bit field, the name in a zero-padded field of 29
    bytes, a revision byte) and pads the whole with zero bytes to a multiple
    of eight. *)
Definition marshalEntryMatch (name : string) (data : list byte) : list byte :=
  let size := binary.AlignUp (linux.SizeOfXTEntryMatch + len data) 8 in
  let nameField :=
    firstn linux.XT_EXTENSION_MAXNAMELEN
      (list_byte_of_string name ++ repeat x00 linux.XT_EXTENSION_MAXNAMELEN) in
  let buf := ByteOrder.PutUint16_le (to_uint16 size) ++ nameField ++ [x00] ++ data in
  buf ++ repeat x00 (Z.to_nat (size - len buf)).

(** [tcpMarshaler.marshal]. *)
Definition marshal (mr : Matcher) : outcome (list byte) :=
  matcher <- match mr with
             | MatcherTCP m => Returned m
             | MatcherOther _ => Panics TypeAssertionFailed
             end ;;
  let xttcp := {| linux.SourcePortStart := sourcePortStart matcher;
                  linux.SourcePortEnd := sourcePortEnd matcher;
                  linux.DestinationPortStart := destinationPortStart matcher;
                  linux.DestinationPortEnd := destinationPortEnd matcher;
                  linux.Option := 0;
                  linux.FlagMask := 0;
                  linux.FlagCompare := 0;
                  linux.InverseFlags := 0 |} in
  let buf := [] in
  Returned (marshalEntryMatch matcherNameTCP (binary.Marshal_XTTCP buf xttcp)).

(** [tcpMarshaler.unmarshal]. *)
Definition unmarshal (buf : list byte) (filter : stack.IPHeaderFilter) : outcome result :=
  if len buf <? linux.SizeOfXTTCP
  then Returned (Err (ErrInsufficientSize (len buf)))
  else
    matchData <- binary.Unmarshal_XTTCP (firstn (Z.to_nat linux.SizeOfXTTCP) buf) ;;
    if negb (linux.Option matchData =? 0)
       || negb (linux.FlagMask matchData =? 0)
       || negb (linux.FlagCompare matchData =? 0)
       || negb (linux.InverseFlags matchData =? 0)
    then Returned (Err ErrUnsupportedFlags)
    else if negb (stack.Protocol filter =? header.TCPProtocolNumber)
    then Returned (Err (ErrProtocol header.TCPProtocolNumber))
    else Returned (Ok (MatcherTCP
           {| sourcePortStart := linux.SourcePortStart matchData;
              sourcePortEnd := linux.SourcePortEnd matchData;
              destinationPortStart := linux.DestinationPortStart matchData;
              destinationPortEnd := linux.DestinationPortEnd matchData |})).

(** [TCPMatcher.Name]. *)
Definition Name (tm : TCPMatcher) : string := matcherNameTCP.

Section Match.

Context {acc : header.Accessors}.

(** The tail of [Match]: the two range checks on the ports of
    [tcpHeader]. *)
Definition checkPorts (tm : TCPMatcher) (tcpHeader : list byte) : outcome (bool * bool) :=
  sourcePort <- header.SourcePort tcpHeader ;;
  if (sourcePort <? sourcePortStart tm) || (sourcePortEnd tm <? sourcePort)
  then Returned (false, false)
  else
    destinationPort <- header.DestinationPort tcpHeader ;;
    if (destinationPort <? destinationPortStart tm)
       || (destinationPortEnd tm <? destinationPort)
    then Returned (false, false)
    else Returned (true, false).

(** The second pull-up of [Match], [length] bytes into the packet data,
    and what follows it. *)
Definition pullTransport (tm : TCPMatcher) (pkt : stack.PacketBuffer) (length : Z)
  : outcome (bool * bool) :=
  match buffer.PullUp (stack.Data pkt) (length + header.TCPMinimumSize) with
  | None => Returned (false, true)
  | Some hdr =>
      tcpHeader <- slice_from hdr length ;;
      checkPorts tm tcpHeader
  end.

(** [TCPMatcher.Match]; the pair is (matched, hotdrop). *)
Definition Match (tm : TCPMatcher) (hook : stack.Hook) (pkt : stack.PacketBuffer)
    (interfaceName : string) : outcome (bool * bool) :=
  let netHeader := buffer.bytes (stack.NetworkHeader pkt) in
  proto <- header.TransportProtocol netHeader ;;
  if negb (proto =? header.TCPProtocolNumber)
  then Returned (false, false)
  else
    frag <- header.FragmentOffset netHeader ;;
    if negb (frag =? 0)
    then (if frag =? 1 then Returned (false, true) else Returned (false, false))
    else
      match stack.TransportHeader pkt with
      | Some th => checkPorts tm th
      | None =>
          if stack.Hook_eqb hook stack.Prerouting
          then
            match buffer.PullUp (stack.Data pkt) header.IPv4MinimumSize with
            | None => Returned (false, true)
            | Some hdr =>
                let h := hdr in
                let pkt := stack.set_NetworkHeader pkt hdr in
                length <- header.HeaderLength h ;;
                pullTransport tm pkt length
            end
          else pullTransport tm pkt 0
      end.

End Match.

(** ** Vocabulary of the statements *)

(** The fields of a decoded match block that [unmarshal] does not
    interpret: some of them set, all of them zero. *)
Definition unsupportedFlagsSet (md : linux.XTTCP) : Prop :=
  linux.Option md <> 0 \/ linux.FlagMask md <> 0 \/
  linux.FlagCompare md <> 0 \/ linux.InverseFlags md <> 0.

Definition flagsZero (md : linux.XTTCP) : Prop :=
  linux.Option md = 0 /\ linux.FlagMask md = 0 /\
  linux.FlagCompare md = 0 /\ linux.InverseFlags md = 0.

(** The instance that [unmarshal] builds from a decoded match block. *)
Definition instanceOf (md : linux.XTTCP) : TCPMatcher :=
  {| sourcePortStart := linux.SourcePortStart md;
     sourcePortEnd := linux.SourcePortEnd md;
     destinationPortStart := linux.DestinationPortStart md;
     destinationPortEnd := linux.DestinationPortEnd md |}.

(** A port inside a closed range. *)
Definition inRange (port lo hi : Z) : bool := (lo <=? port) && (port <=? hi).

(** Where the transport header of a packet is found at a hook: in the
    packet view when an earlier stage has parsed it; otherwise, at the
    pre-routing hook, in the packet data behind the network header, whose
    length is read from the first [IPv4MinimumSize] bytes of the data; at
    any other hook, at the front of the packet data. *)
Inductive transportHeaderAt {acc : header.Accessors}
    (hook : stack.Hook) (pkt : stack.PacketBuffer) : list byte -> Prop :=
| transportHeaderParsed (th : list byte) :
    stack.TransportHeader pkt = Some th ->
    transportHeaderAt hook pkt th
| transportHeaderPrerouting (ih hdr : list byte) (length : Z) :
    stack.TransportHeader pkt = None ->
    hook = stack.Prerouting ->
    buffer.PullUp (stack.Data pkt) header.IPv4MinimumSize = Some ih ->
    header.HeaderLength ih = Returned length ->
    0 <= length ->
    buffer.PullUp (stack.Data pkt) (length + header.TCPMinimumSize) = Some hdr ->
    transportHeaderAt hook pkt (skipn (Z.to_nat length) hdr)
| transportHeaderOther (hdr : list byte) :
    stack.TransportHeader pkt = None ->
    hook <> stack.Prerouting ->
    buffer.PullUp (stack.Data pkt) header.TCPMinimumSize = Some hdr ->
    transportHeaderAt hook pkt hdr.

(** ** Sample data *)

Module Samples.

Definition filterTCP : stack.IPHeaderFilter := {| stack.Protocol := 6 |}.
Definition filterUDP : stack.IPHeaderFilter := {| stack.Protocol := 17 |}.

(** Source ports 1000 to 2000, destination port 80. *)
Definition tm : TCPMatcher :=
  {| sourcePortStart := 1000; sourcePortEnd := 2000;
     destinationPortStart := 80; destinationPortEnd := 80 |}.

(** The match block of [tm]. *)
Definition block : list byte :=
  [xe8; x03; xd0; x07; x50; x00; x50; x00; x00; x00; x00; x00].

(** The same block with the inverse-flags byte set. *)
Definition blockFlagged : list byte :=
  [xe8; x03; xd0; x07; x50; x00; x50; x00; x00; x00; x00; x01].

(** An IPv4 header of 20 bytes, protocol TCP, not a fragment. *)
Definition ipHeader : list byte :=
  [x45; x00; x00; x28; x00; x00; x00; x00; x40; x06;
   x00; x00; x0a; x00; x00; x01; x0a; x00; x00; x02].

(** The same header with fragment offset field 1, that is 8 bytes. *)
Definition ipHeaderFragment : list byte :=
  [x45; x00; x00; x28; x00; x00; x00; x01; x40; x06;
   x00; x00; x0a; x00; x00; x01; x0a; x00; x00; x02].

(** A TCP header of 20 bytes, source port 1500, destination port 80. *)
Definition tcpHeader : list byte :=
  [x05; xdc; x00; x50; x00; x00; x00; x00; x00; x00;
   x00; x00; x50; x02; x00; x00; x00; x00; x00; x00].

(** The packet when the transport header has been parsed. *)
Definition pktParsed : stack.PacketBuffer :=
  {| stack.Data := [];
     stack.NetworkHeader := Some ipHeader;
     stack.TransportHeader := Some tcpHeader |}.

(** The packet at the pre-routing hook: both headers still in the data. *)
Definition pktPrerouting : stack.PacketBuffer :=
  {| stack.Data := ipHeader ++ tcpHeader;
     stack.NetworkHeader := Some ipHeader;
     stack.TransportHeader := None |}.

(** The packet at a later hook: the data starts at the TCP header. *)
Definition pktInput : stack.PacketBuffer :=
  {| stack.Data := tcpHeader;
     stack.NetworkHeader := Some ipHeader;
     stack.TransportHeader := None |}.

(** One byte of captured transport data. *)
Definition pktTruncated : stack.PacketBuffer :=
  {| stack.Data := [x05];
     stack.NetworkHeader := Some ipHeader;
     stack.TransportHeader := None |}.

(** A fragment. *)
Definition pktFragment : stack.PacketBuffer :=
  {| stack.Data := tcpHeader;
     stack.NetworkHeader := Some ipHeaderFragment;
     stack.TransportHeader := None |}.

(** The packet at the pre-routing hook before anything has been parsed:
    no network header, no transport header. *)
Definition pktUnparsed : stack.PacketBuffer :=
  {| stack.Data := ipHeader ++ tcpHeader;
     stack.NetworkHeader := None;
     stack.TransportHeader := None |}.

End Samples.

(** ** Further sample data *)

Module MoreSamples.

(** Any source port in 0 to 65535, destination ports 80 to 443: wider than
    [Samples.tm] on every side. *)
Definition tmWide : TCPMatcher :=
  {| sourcePortStart := 0; sourcePortEnd := 65535;
     destinationPortStart := 80; destinationPortEnd := 443 |}.

(** Source ports 2000 down to 1000: an inverted range. *)
Definition tmInverted : TCPMatcher :=
  {| sourcePortStart := 2000; sourcePortEnd := 1000;
     destinationPortStart := 80; destinationPortEnd := 80 |}.

(** An IPv4 header of 20 bytes, protocol UDP, fragment offset field 1. *)
Definition ipHeaderUDP : list byte :=
  [x45; x00; x00; x28; x00; x00; x00; x01; x40; x11;
   x00; x00; x0a; x00; x00; x01; x0a; x00; x00; x02].

(** A UDP packet with one byte of data and no transport header. *)
Definition pktUDP : stack.PacketBuffer :=
  {| stack.Data := [x05];
     stack.NetworkHeader := Some ipHeaderUDP;
     stack.TransportHeader := None |}.

(** A transport header cut after the source port. *)
Definition pktSourcePortOnly : stack.PacketBuffer :=
  {| stack.Data := [];
     stack.NetworkHeader := Some Samples.ipHeader;
     stack.TransportHeader := Some [x03; xe7] |}.

(** Payload behind the headers. *)
Definition payload : list byte := [xde; xad; xbe; xef].

End MoreSamples.

(** * Properties *)

(** ** Bytes *)

Lemma uint8_of_range (b : byte) : 0 <= uint8_of b < 256.
Proof.
  unfold uint8_of. pose proof (Byte.to_N_bounded b) as H. lia.
Qed.

Lemma uint8_of_to_byte (z : Z) : uint8_of (to_byte z) = z mod 256.
Proof.
  unfold uint8_of, to_byte.
  pose proof (Z.mod_pos_bound z 256 ltac:(lia)) as Hr.
  destruct (Byte.of_N (Z.to_N (z mod 256))) as [b|] eqn:E.
  - apply Byte.to_of_N in E. rewrite E. lia.
  - apply Byte.of_N_None_iff in E. lia.
Qed.

Lemma lor_shiftl_8 (lo hi : Z) :
  0 <= lo < 256 -> Z.lor lo (Z.shiftl hi 8) = lo + 256 * hi.
Proof.
  intros Hlo.
  assert (Hdisj : Z.land lo (Z.shiftl hi 8) = 0).
  { apply Z.bits_inj'. intros i Hi.
    rewrite Z.land_spec, Z.bits_0.
    destruct (Z.ltb_spec i 8) as [Hlt|Hge].
    - rewrite (Z.shiftl_spec_low hi 8 i Hlt). apply andb_false_r.
    - replace lo with (lo mod 2 ^ 8) by (apply Z.mod_small; change (2 ^ 8) with 256; lia).
      rewrite Z.mod_pow2_bits_high by lia. reflexivity. }
  pose proof (Z.add_lor_land lo (Z.shiftl hi 8)) as Hadd.
  rewrite Hdisj in Hadd.
  rewrite Z.shiftl_mul_pow2 in Hadd at 2 by lia.
  change (2 ^ 8) with 256 in Hadd. lia.
Qed.

Lemma le16_of_put (v : Z) :
  is_uint16 v ->
  Z.lor (uint8_of (to_byte v)) (Z.shiftl (uint8_of (to_byte (Z.shiftr v 8))) 8) = v.
Proof.
  unfold is_uint16. intros Hv.
  rewrite !uint8_of_to_byte.
  rewrite lor_shiftl_8 by (apply Z.mod_pos_bound; lia).
  rewrite Z.shiftr_div_pow2 by lia. change (2 ^ 8) with 256.
  rewrite (Z.mod_small (v / 256) 256)
    by (split; [apply Z.div_pos | apply Z.div_lt_upper_bound]; lia).
  pose proof (Z.div_mod v 256 ltac:(lia)). lia.
Qed.

Lemma Uint16_le_PutUint16_le (v : Z) (rest : list byte) :
  is_uint16 v ->
  ByteOrder.Uint16_le (ByteOrder.PutUint16_le v ++ rest) = Returned v.
Proof.
  intros Hv. unfold ByteOrder.PutUint16_le, ByteOrder.Uint16_le. cbn [app].
  now rewrite le16_of_put.
Qed.

(** ** The wire codec *)

(** A buffer of at least twelve bytes, taken apart. *)
Lemma buf_at_least_12 (buf : list byte) :
  linux.SizeOfXTTCP <= len buf ->
  exists b0 b1 b2 b3 b4 b5 b6 b7 b8 b9 b10 b11 tl,
    buf = [b0; b1; b2; b3; b4; b5; b6; b7; b8; b9; b10; b11] ++ tl.
Proof.
  unfold linux.SizeOfXTTCP, len. intros H.
  do 12 (destruct buf as [|? buf]; [cbn [List.length] in H; lia|]).
  repeat eexists.
Qed.

(** What the codec reads from twelve bytes. *)
Lemma Unmarshal_XTTCP_bytes (b0 b1 b2 b3 b4 b5 b6 b7 b8 b9 b10 b11 : byte) :
  binary.Unmarshal_XTTCP [b0; b1; b2; b3; b4; b5; b6; b7; b8; b9; b10; b11] =
  Returned {| linux.SourcePortStart := Z.lor (uint8_of b0) (Z.shiftl (uint8_of b1) 8);
              linux.SourcePortEnd := Z.lor (uint8_of b2) (Z.shiftl (uint8_of b3) 8);
              linux.DestinationPortStart := Z.lor (uint8_of b4) (Z.shiftl (uint8_of b5) 8);
              linux.DestinationPortEnd := Z.lor (uint8_of b6) (Z.shiftl (uint8_of b7) 8);
              linux.Option := uint8_of b8;
              linux.FlagMask := uint8_of b9;
              linux.FlagCompare := uint8_of b10;
              linux.InverseFlags := uint8_of b11 |}.
Proof. reflexivity. Qed.

(** Decoding the prefix of a buffer that is long enough never panics. *)
Lemma Unmarshal_XTTCP_total (buf : list byte) :
  linux.SizeOfXTTCP <= len buf ->
  exists md, binary.Unmarshal_XTTCP (firstn (Z.to_nat linux.SizeOfXTTCP) buf) = Returned md.
Proof.
  intros H.
  destruct (buf_at_least_12 buf H)
    as (b0 & b1 & b2 & b3 & b4 & b5 & b6 & b7 & b8 & b9 & b10 & b11 & tl & ->).
  eexists. apply Unmarshal_XTTCP_bytes.
Qed.

(** The codec round trip on the match block, whatever follows it. *)
Lemma Unmarshal_Marshal_XTTCP (x : linux.XTTCP) (tl : list byte) :
  is_uint16 (linux.SourcePortStart x) -> is_uint16 (linux.SourcePortEnd x) ->
  is_uint16 (linux.DestinationPortStart x) -> is_uint16 (linux.DestinationPortEnd x) ->
  is_uint8 (linux.Option x) -> is_uint8 (linux.FlagMask x) ->
  is_uint8 (linux.FlagCompare x) -> is_uint8 (linux.InverseFlags x) ->
  binary.Unmarshal_XTTCP
    (firstn (Z.to_nat linux.SizeOfXTTCP) (binary.Marshal_XTTCP [] x ++ tl)) = Returned x.
Proof.
  intros H1 H2 H3 H4 H5 H6 H7 H8. destruct x as [a b c d o m k i].
  cbn [linux.SourcePortStart linux.SourcePortEnd linux.DestinationPortStart
       linux.DestinationPortEnd linux.Option linux.FlagMask linux.FlagCompare
       linux.InverseFlags] in *.
  change (firstn (Z.to_nat linux.SizeOfXTTCP)
            (binary.Marshal_XTTCP [] {| linux.SourcePortStart := a; linux.SourcePortEnd := b;
               linux.DestinationPortStart := c; linux.DestinationPortEnd := d;
               linux.Option := o; linux.FlagMask := m; linux.FlagCompare := k;
               linux.InverseFlags := i |} ++ tl))
    with [to_byte a; to_byte (Z.shiftr a 8); to_byte b; to_byte (Z.shiftr b 8);
          to_byte c; to_byte (Z.shiftr c 8); to_byte d; to_byte (Z.shiftr d 8);
          to_byte o; to_byte m; to_byte k; to_byte i].
  rewrite Unmarshal_XTTCP_bytes.
  rewrite !le16_of_put by assumption.
  unfold is_uint8 in *.
  rewrite !uint8_of_to_byte, !Z.mod_small by lia.
  reflexivity.
Qed.

(** ** [unmarshal] *)

Lemma unmarshal_short (buf : list byte) (filter : stack.IPHeaderFilter) :
  len buf < linux.SizeOfXTTCP ->
  unmarshal buf filter = Returned (Err (ErrInsufficientSize (len buf))).
Proof.
  intros H. unfold unmarshal.
  destruct (Z.ltb_spec (len buf) linux.SizeOfXTTCP); [reflexivity | lia].
Qed.

(** Past the size check, [unmarshal] is a function of the decoded block. *)
Lemma unmarshal_decoded (buf : list byte) (filter : stack.IPHeaderFilter) (md : linux.XTTCP) :
  linux.SizeOfXTTCP <= len buf ->
  binary.Unmarshal_XTTCP (firstn (Z.to_nat linux.SizeOfXTTCP) buf) = Returned md ->
  unmarshal buf filter =
    if negb (linux.Option md =? 0) || negb (linux.FlagMask md =? 0)
       || negb (linux.FlagCompare md =? 0) || negb (linux.InverseFlags md =? 0)
    then Returned (Err ErrUnsupportedFlags)
    else if negb (stack.Protocol filter =? header.TCPProtocolNumber)
    then Returned (Err (ErrProtocol header.TCPProtocolNumber))
    else Returned (Ok (MatcherTCP (instanceOf md))).
Proof.
  intros Hlen Hmd. unfold unmarshal.
  destruct (Z.ltb_spec (len buf) linux.SizeOfXTTCP); [lia|].
  rewrite Hmd. reflexivity.
Qed.

Lemma flags_test_set (md : linux.XTTCP) :
  unsupportedFlagsSet md ->
  negb (linux.Option md =? 0) || negb (linux.FlagMask md =? 0)
  || negb (linux.FlagCompare md =? 0) || negb (linux.InverseFlags md =? 0) = true.
Proof.
  unfold unsupportedFlagsSet. intros H.
  destruct (Z.eqb_spec (linux.Option md) 0), (Z.eqb_spec (linux.FlagMask md) 0),
    (Z.eqb_spec (linux.FlagCompare md) 0), (Z.eqb_spec (linux.InverseFlags md) 0);
    cbn; try reflexivity; exfalso; intuition congruence.
Qed.

Lemma flags_test_zero (md : linux.XTTCP) :
  flagsZero md ->
  negb (linux.Option md =? 0) || negb (linux.FlagMask md =? 0)
  || negb (linux.FlagCompare md =? 0) || negb (linux.InverseFlags md =? 0) = false.
Proof.
  intros (-> & -> & -> & ->). reflexivity.
Qed.

(** Two buffers with the same first twelve bytes are unmarshalled alike. *)
Lemma unmarshal_prefix (buf buf' : list byte) (filter : stack.IPHeaderFilter) :
  linux.SizeOfXTTCP <= len buf ->
  firstn (Z.to_nat linux.SizeOfXTTCP) buf' = firstn (Z.to_nat linux.SizeOfXTTCP) buf ->
  unmarshal buf' filter = unmarshal buf filter.
Proof.
  intros Hlen Hpre.
  assert (Hlen' : linux.SizeOfXTTCP <= len buf').
  { apply (f_equal (@List.length byte)) in Hpre.
    rewrite !length_firstn in Hpre. unfold len, linux.SizeOfXTTCP in *. lia. }
  destruct (Unmarshal_XTTCP_total buf Hlen) as [md Hmd].
  rewrite (unmarshal_decoded buf filter md Hlen Hmd).
  rewrite <- Hpre in Hmd.
  rewrite (unmarshal_decoded buf' filter md Hlen' Hmd). reflexivity.
Qed.

(** C6. Whatever the header filter, a buffer of at least [SizeOfXTTCP] bytes
    decodes to a match block, and when any of its option, flag-mask,
    flag-compare or inverse-flags fields (bytes 8 to 11) is not zero,
    [unmarshal] returns the unsupported-flags error and no instance. *)
Theorem unmarshal_rejects_unsupported_flags
    (buf : list byte) (filter : stack.IPHeaderFilter) :
  linux.SizeOfXTTCP <= len buf ->
  exists md,
    binary.Unmarshal_XTTCP (firstn (Z.to_nat linux.SizeOfXTTCP) buf) = Returned md /\
    linux.Option md = uint8_of (nth 8 buf x00) /\
    linux.FlagMask md = uint8_of (nth 9 buf x00) /\
    linux.FlagCompare md = uint8_of (nth 10 buf x00) /\
    linux.InverseFlags md = uint8_of (nth 11 buf x00) /\
    (unsupportedFlagsSet md ->
     unmarshal buf filter = Returned (Err ErrUnsupportedFlags)).
Proof.
  intros Hlen.
  destruct (buf_at_least_12 buf Hlen)
    as (b0 & b1 & b2 & b3 & b4 & b5 & b6 & b7 & b8 & b9 & b10 & b11 & tl & E).
  pose proof (Unmarshal_XTTCP_bytes b0 b1 b2 b3 b4 b5 b6 b7 b8 b9 b10 b11) as Hmd.
  eexists. split; [subst buf; exact Hmd|].
  subst buf. repeat (split; [reflexivity|]).
  intros Hset.
  rewrite (unmarshal_decoded _ filter _ Hlen Hmd).
  now rewrite flags_test_set.
Qed.

Lemma unmarshal_rejects_unsupported_flags_witness :
  unmarshal Samples.blockFlagged Samples.filterTCP = Returned (Err ErrUnsupportedFlags).
Proof.
  destruct (unmarshal_rejects_unsupported_flags Samples.blockFlagged Samples.filterTCP)
    as (md & Hmd & _ & _ & _ & Hinv & H).
  - vm_compute. discriminate.
  - apply H. right. right. right. rewrite Hinv. vm_compute. discriminate.
Defined.

(** C7. A buffer shorter than [SizeOfXTTCP] is refused with the size error.
    A buffer of at least that size decodes; when the decoded flag fields
    are zero and the filter's protocol is TCP, [unmarshal] returns an
    instance, and returns the same one for every buffer that starts with the
    same [SizeOfXTTCP] bytes. *)
Theorem unmarshal_size_check (buf : list byte) (filter : stack.IPHeaderFilter) :
  (len buf < linux.SizeOfXTTCP ->
   unmarshal buf filter = Returned (Err (ErrInsufficientSize (len buf)))) /\
  (linux.SizeOfXTTCP <= len buf ->
   exists md,
     binary.Unmarshal_XTTCP (firstn (Z.to_nat linux.SizeOfXTTCP) buf) = Returned md /\
     (flagsZero md ->
      stack.Protocol filter = header.TCPProtocolNumber ->
      exists m,
        unmarshal buf filter = Returned (Ok m) /\
        forall buf' : list byte,
          firstn (Z.to_nat linux.SizeOfXTTCP) buf' = firstn (Z.to_nat linux.SizeOfXTTCP) buf ->
          unmarshal buf' filter = Returned (Ok m))).
Proof.
  split.
  - apply unmarshal_short.
  - intros Hlen.
    destruct (Unmarshal_XTTCP_total buf Hlen) as [md Hmd].
    exists md. split; [exact Hmd|].
    intros Hz Hp.
    exists (MatcherTCP (instanceOf md)).
    assert (E : unmarshal buf filter = Returned (Ok (MatcherTCP (instanceOf md)))).
    { rewrite (unmarshal_decoded buf filter md Hlen Hmd).
      rewrite flags_test_zero by exact Hz.
      rewrite Hp, Z.eqb_refl. reflexivity. }
    split; [exact E|].
    intros buf' Hpre. rewrite <- E. now apply unmarshal_prefix.
Qed.

Lemma unmarshal_size_check_witness :
  unmarshal (firstn 11 Samples.block) Samples.filterTCP
    = Returned (Err (ErrInsufficientSize 11)) /\
  exists m,
    unmarshal Samples.block Samples.filterTCP = Returned (Ok m) /\
    unmarshal (Samples.block ++ [xff; xff; xff; xff]) Samples.filterTCP = Returned (Ok m).
Proof.
  split.
  - apply (proj1 (unmarshal_size_check (firstn 11 Samples.block) Samples.filterTCP)).
    vm_compute. reflexivity.
  - destruct (proj2 (unmarshal_size_check Samples.block Samples.filterTCP))
      as (md & Hmd & H).
    + vm_compute. discriminate.
    + vm_compute in Hmd. injection Hmd as <-.
      destruct H as (m & Hm & Hall).
      * repeat split.
      * reflexivity.
      * exists m. split; [exact Hm|]. apply Hall. reflexivity.
Defined.

(** C8. For a buffer of at least [SizeOfXTTCP] bytes whose decoded flag
    fields are zero, [unmarshal] returns the protocol error exactly when the
    filter's protocol is not TCP, and otherwise the instance made of the
    four decoded port bounds. *)
Theorem unmarshal_protocol_check (buf : list byte) (filter : stack.IPHeaderFilter) :
  linux.SizeOfXTTCP <= len buf ->
  exists md,
    binary.Unmarshal_XTTCP (firstn (Z.to_nat linux.SizeOfXTTCP) buf) = Returned md /\
    (flagsZero md ->
     (unmarshal buf filter = Returned (Err (ErrProtocol header.TCPProtocolNumber))
      <-> stack.Protocol filter <> header.TCPProtocolNumber) /\
     (stack.Protocol filter = header.TCPProtocolNumber ->
      unmarshal buf filter =
        Returned (Ok (MatcherTCP
          {| sourcePortStart := linux.SourcePortStart md;
             sourcePortEnd := linux.SourcePortEnd md;
             destinationPortStart := linux.DestinationPortStart md;
             destinationPortEnd := linux.DestinationPortEnd md |})))).
Proof.
  intros Hlen.
  destruct (Unmarshal_XTTCP_total buf Hlen) as [md Hmd].
  exists md. split; [exact Hmd|].
  intros Hz.
  rewrite (unmarshal_decoded buf filter md Hlen Hmd).
  rewrite flags_test_zero by exact Hz.
  destruct (Z.eqb_spec (stack.Protocol filter) header.TCPProtocolNumber) as [Heq|Hne]; cbn [negb].
  - split; [split; [discriminate | intros Hn; contradiction] | reflexivity].
  - split; [split; [intros _; exact Hne | reflexivity] | intros Heq; contradiction].
Qed.

Lemma unmarshal_protocol_check_witness :
  unmarshal Samples.block Samples.filterUDP
    = Returned (Err (ErrProtocol header.TCPProtocolNumber)) /\
  unmarshal Samples.block Samples.filterTCP = Returned (Ok (MatcherTCP Samples.tm)).
Proof.
  split.
  - destruct (unmarshal_protocol_check Samples.block Samples.filterUDP)
      as (md & Hmd & H).
    + vm_compute. discriminate.
    + vm_compute in Hmd. injection Hmd as <-.
      apply (proj1 (H ltac:(repeat split))). vm_compute. discriminate.
  - destruct (unmarshal_protocol_check Samples.block Samples.filterTCP)
      as (md & Hmd & H).
    + vm_compute. discriminate.
    + vm_compute in Hmd. injection Hmd as <-.
      apply (proj2 (H ltac:(repeat split))). reflexivity.
Defined.

(** ** [marshal] and the round trip *)

(** What [marshal] writes: the generic match header, the match block, and
    four bytes of padding, 48 bytes in all. *)
Lemma marshal_layout (tm : TCPMatcher) :
  marshal (MatcherTCP tm) =
  Returned
    (ByteOrder.PutUint16_le 48
     ++ (list_byte_of_string matcherNameTCP ++ repeat x00 26)
     ++ [x00]
     ++ binary.Marshal_XTTCP []
          {| linux.SourcePortStart := sourcePortStart tm;
             linux.SourcePortEnd := sourcePortEnd tm;
             linux.DestinationPortStart := destinationPortStart tm;
             linux.DestinationPortEnd := destinationPortEnd tm;
             linux.Option := 0; linux.FlagMask := 0;
             linux.FlagCompare := 0; linux.InverseFlags := 0 |}
     ++ repeat x00 4).
Proof.
  reflexivity.
Qed.

Lemma marshal_length (tm : TCPMatcher) :
  exists bs, marshal (MatcherTCP tm) = Returned bs /\ len bs = 48.
Proof.
  eexists. split; [apply marshal_layout | reflexivity].
Qed.

(** C2, as stated, fails: [marshal] returns the match block behind the
    generic match header, and [unmarshal] applied to these bytes reads the
    header as if it were the block. *)
Lemma unmarshal_marshal_counterexample :
  valid Samples.tm /\
  stack.Protocol Samples.filterTCP = header.TCPProtocolNumber /\
  exists bs,
    marshal (MatcherTCP Samples.tm) = Returned bs /\
    unmarshal bs Samples.filterTCP =
      Returned (Ok (MatcherTCP {| sourcePortStart := 48; sourcePortEnd := 25460;
                                  destinationPortStart := 112; destinationPortEnd := 0 |})) /\
    unmarshal bs Samples.filterTCP <> Returned (Ok (MatcherTCP Samples.tm)).
Proof.
  split; [|split].
  - unfold valid, is_uint16, Samples.tm; cbn; lia.
  - reflexivity.
  - eexists. split; [reflexivity|]. split; [reflexivity|].
    vm_compute. discriminate.
Qed.

(** C2, amended. For a valid instance and a filter whose protocol is TCP,
    [marshal] returns, and [unmarshal] applied to what follows the generic
    match header in the bytes of [marshal] (the match block and its padding)
    returns the original instance. *)
Theorem unmarshal_marshal_block (tm : TCPMatcher) (filter : stack.IPHeaderFilter) :
  valid tm ->
  stack.Protocol filter = header.TCPProtocolNumber ->
  exists bs,
    marshal (MatcherTCP tm) = Returned bs /\
    unmarshal (skipn (Z.to_nat linux.SizeOfXTEntryMatch) bs) filter
      = Returned (Ok (MatcherTCP tm)).
Proof.
  intros (H1 & H2 & H3 & H4) Hp.
  eexists. split; [apply marshal_layout|].
  set (x := {| linux.SourcePortStart := sourcePortStart tm;
               linux.SourcePortEnd := sourcePortEnd tm;
               linux.DestinationPortStart := destinationPortStart tm;
               linux.DestinationPortEnd := destinationPortEnd tm;
               linux.Option := 0; linux.FlagMask := 0;
               linux.FlagCompare := 0; linux.InverseFlags := 0 |}).
  change (skipn _ _) with (binary.Marshal_XTTCP [] x ++ repeat x00 4).
  assert (Hmd : binary.Unmarshal_XTTCP
                  (firstn (Z.to_nat linux.SizeOfXTTCP)
                     (binary.Marshal_XTTCP [] x ++ repeat x00 4)) = Returned x).
  { apply Unmarshal_Marshal_XTTCP; try assumption; unfold is_uint8; cbn; lia. }
  assert (Hlen : linux.SizeOfXTTCP <= len (binary.Marshal_XTTCP [] x ++ repeat x00 4))
    by (vm_compute; discriminate).
  rewrite (unmarshal_decoded _ filter x Hlen Hmd).
  rewrite flags_test_zero by (repeat split).
  rewrite Hp, Z.eqb_refl. cbn [negb]. destruct tm; reflexivity.
Qed.

Lemma unmarshal_marshal_block_witness :
  exists bs,
    marshal (MatcherTCP Samples.tm) = Returned bs /\
    unmarshal (skipn (Z.to_nat linux.SizeOfXTEntryMatch) bs) Samples.filterTCP
      = Returned (Ok (MatcherTCP Samples.tm)).
Proof.
  apply (unmarshal_marshal_block Samples.tm Samples.filterTCP).
  - unfold valid, is_uint16, Samples.tm; cbn; lia.
  - reflexivity.
Defined.

(** ** Pulling up packet data *)

Lemma PullUp_Some (vv : buffer.VectorisedView) (count : Z) (hdr : list byte) :
  buffer.PullUp vv count = Some hdr <->
  count <= len vv /\ hdr = firstn (Z.to_nat count) vv.
Proof.
  unfold buffer.PullUp.
  destruct (Z.leb_spec count (len vv)); split.
  - intros [= <-]. auto.
  - intros [_ ->]. reflexivity.
  - discriminate.
  - intros [? _]. lia.
Qed.

Lemma PullUp_None (vv : buffer.VectorisedView) (count : Z) :
  buffer.PullUp vv count = None <-> len vv < count.
Proof.
  unfold buffer.PullUp.
  destruct (Z.leb_spec count (len vv)); split;
    solve [discriminate | lia | reflexivity].
Qed.

Lemma PullUp_length (vv : buffer.VectorisedView) (count : Z) (hdr : list byte) :
  0 <= count ->
  buffer.PullUp vv count = Some hdr -> len hdr = count.
Proof.
  intros Hc H. apply PullUp_Some in H as [Hle ->].
  unfold len in *. rewrite length_firstn. lia.
Qed.

Lemma slice_from_ok (b : list byte) (lo : Z) :
  0 <= lo <= len b -> slice_from b lo = Returned (skipn (Z.to_nat lo) b).
Proof.
  intros [H0 H1]. unfold slice_from.
  destruct (Z.leb_spec 0 lo); [|lia].
  destruct (Z.leb_spec lo (len b)); [reflexivity | lia].
Qed.

Lemma Hook_eqb_eq (a b : stack.Hook) : stack.Hook_eqb a b = true <-> a = b.
Proof.
  destruct a, b; cbn; split; intros H; try reflexivity; discriminate H.
Qed.

Lemma Hook_eqb_neq (a b : stack.Hook) : stack.Hook_eqb a b = false <-> a <> b.
Proof.
  destruct a, b; cbn; split; intros H; try reflexivity;
    try discriminate H; try (intros E; discriminate E); exfalso; apply H; reflexivity.
Qed.

(** ** [Match] *)

Section MatchProperties.

Context {acc : header.Accessors}.

Implicit Types (tm : TCPMatcher) (hook : stack.Hook) (pkt : stack.PacketBuffer)
  (interfaceName : string).

(** The range checks, as one boolean. *)
Lemma checkPorts_inRange tm (tcpHeader : list byte) (sp dp : Z) :
  header.SourcePort tcpHeader = Returned sp ->
  header.DestinationPort tcpHeader = Returned dp ->
  checkPorts tm tcpHeader =
    Returned (inRange sp (sourcePortStart tm) (sourcePortEnd tm)
              && inRange dp (destinationPortStart tm) (destinationPortEnd tm), false).
Proof.
  intros Hs Hd. unfold checkPorts, inRange. rewrite Hs. cbn [bind].
  destruct (Z.ltb_spec sp (sourcePortStart tm)), (Z.leb_spec (sourcePortStart tm) sp);
    try lia; cbn [orb andb]; [reflexivity|].
  destruct (Z.ltb_spec (sourcePortEnd tm) sp), (Z.leb_spec sp (sourcePortEnd tm));
    try lia; cbn [orb andb]; [reflexivity|].
  rewrite Hd. cbn [bind].
  destruct (Z.ltb_spec dp (destinationPortStart tm)),
    (Z.leb_spec (destinationPortStart tm) dp); try lia; cbn [orb andb]; [reflexivity|].
  destruct (Z.ltb_spec (destinationPortEnd tm) dp),
    (Z.leb_spec dp (destinationPortEnd tm)); try lia; reflexivity.
Qed.

Lemma inRange_inverted (port lo hi : Z) : hi < lo -> inRange port lo hi = false.
Proof.
  intros H. unfold inRange.
  destruct (Z.leb_spec lo port), (Z.leb_spec port hi); try reflexivity; lia.
Qed.

Lemma checkPorts_shape tm (tcpHeader : list byte) (r : bool * bool) :
  checkPorts tm tcpHeader = Returned r -> r = (false, false) \/ r = (true, false).
Proof.
  unfold checkPorts.
  destruct (header.SourcePort tcpHeader) as [sp|]; cbn [bind]; [|discriminate].
  destruct (_ || _); [intros [= <-]; auto|].
  destruct (header.DestinationPort tcpHeader) as [dp|]; cbn [bind]; [|discriminate].
  destruct (_ || _); intros [= <-]; auto.
Qed.

Lemma pullTransport_shape tm pkt (length : Z) (r : bool * bool) :
  pullTransport tm pkt length = Returned r ->
  r = (false, false) \/ r = (false, true) \/ r = (true, false).
Proof.
  unfold pullTransport.
  destruct (buffer.PullUp _ _) as [hdr|]; [|intros [= <-]; auto].
  destruct (slice_from hdr length) as [th|]; cbn [bind]; [|discriminate].
  intros H. apply checkPorts_shape in H. tauto.
Qed.

(** [Match] past its two tests on the network header. *)
Lemma Match_unfragmented tm hook pkt interfaceName :
  header.TransportProtocol (buffer.bytes (stack.NetworkHeader pkt))
    = Returned header.TCPProtocolNumber ->
  header.FragmentOffset (buffer.bytes (stack.NetworkHeader pkt)) = Returned 0 ->
  Match tm hook pkt interfaceName =
    match stack.TransportHeader pkt with
    | Some th => checkPorts tm th
    | None =>
        if stack.Hook_eqb hook stack.Prerouting
        then
          match buffer.PullUp (stack.Data pkt) header.IPv4MinimumSize with
          | None => Returned (false, true)
          | Some hdr =>
              length <- header.HeaderLength hdr ;;
              pullTransport tm (stack.set_NetworkHeader pkt hdr) length
          end
        else pullTransport tm pkt 0
    end.
Proof.
  intros Hp Hf. unfold Match. rewrite Hp. cbn [bind].
  rewrite Z.eqb_refl. cbn [negb]. rewrite Hf. reflexivity.
Qed.

(** [Match] checks the ports of the transport header found by
    [transportHeaderAt]. *)
Lemma Match_at tm hook pkt interfaceName (th : list byte) :
  header.TransportProtocol (buffer.bytes (stack.NetworkHeader pkt))
    = Returned header.TCPProtocolNumber ->
  header.FragmentOffset (buffer.bytes (stack.NetworkHeader pkt)) = Returned 0 ->
  transportHeaderAt hook pkt th ->
  Match tm hook pkt interfaceName = checkPorts tm th.
Proof.
  intros Hp Hf Hat. rewrite (Match_unfragmented _ _ _ _ Hp Hf).
  destruct Hat as [th Hth | ih hdr length Hth Hhook Hih Hlen H0 Hhdr | hdr Hth Hhook Hhdr].
  - now rewrite Hth.
  - rewrite Hth. subst hook. cbn [stack.Hook_eqb]. rewrite Hih, Hlen. cbn [bind].
    unfold pullTransport. cbn [stack.set_NetworkHeader stack.Data]. rewrite Hhdr.
    rewrite slice_from_ok; [reflexivity|].
    apply PullUp_length in Hhdr; unfold header.TCPMinimumSize in *; lia.
  - rewrite Hth. apply Hook_eqb_neq in Hhook. rewrite Hhook.
    unfold pullTransport. change (0 + header.TCPMinimumSize) with header.TCPMinimumSize.
    rewrite Hhdr. rewrite slice_from_ok; [reflexivity|].
    unfold len. lia.
Qed.

(** C1. For an unfragmented TCP packet whose transport header is found
    (parsed already, or pulled up from the packet data) and carries source
    port [sp] and destination port [dp], [Match] returns matched exactly
    when [sourcePortStart <= sp <= sourcePortEnd] and
    [destinationPortStart <= dp <= destinationPortEnd], and never hotdrop;
    with an inverted range (start above end) it returns no match whatever
    the ports are. *)
Theorem Match_port_ranges tm hook pkt interfaceName (th : list byte) (sp dp : Z) :
  header.TransportProtocol (buffer.bytes (stack.NetworkHeader pkt))
    = Returned header.TCPProtocolNumber ->
  header.FragmentOffset (buffer.bytes (stack.NetworkHeader pkt)) = Returned 0 ->
  transportHeaderAt hook pkt th ->
  header.SourcePort th = Returned sp ->
  header.DestinationPort th = Returned dp ->
  Match tm hook pkt interfaceName =
    Returned ((sourcePortStart tm <=? sp) && (sp <=? sourcePortEnd tm)
              && ((destinationPortStart tm <=? dp) && (dp <=? destinationPortEnd tm)),
              false)
  /\ (sourcePortEnd tm < sourcePortStart tm \/
      destinationPortEnd tm < destinationPortStart tm ->
      Match tm hook pkt interfaceName = Returned (false, false)).
Proof.
  intros Hp Hf Hat Hs Hd.
  rewrite (Match_at _ _ _ _ _ Hp Hf Hat), (checkPorts_inRange _ _ _ _ Hs Hd).
  split; [reflexivity|].
  intros [H|H].
  - now rewrite (inRange_inverted sp _ _ H).
  - rewrite (inRange_inverted dp _ _ H). now rewrite andb_false_r.
Qed.

(** C3. For a TCP packet whose network header reports a fragment offset
    [frag] other than zero, [Match] returns (no match, hotdrop) when
    [frag] is 1 and (no match, no hotdrop) when it is greater; the result
    does not depend on the instance, the hook or the rest of the packet. *)
Theorem Match_fragment tm hook pkt interfaceName (frag : Z) :
  header.TransportProtocol (buffer.bytes (stack.NetworkHeader pkt))
    = Returned header.TCPProtocolNumber ->
  header.FragmentOffset (buffer.bytes (stack.NetworkHeader pkt)) = Returned frag ->
  frag <> 0 ->
  Match tm hook pkt interfaceName = Returned (false, frag =? 1)
  /\ (frag = 1 -> Match tm hook pkt interfaceName = Returned (false, true))
  /\ (1 < frag -> Match tm hook pkt interfaceName = Returned (false, false)).
Proof.
  intros Hp Hf Hnz.
  assert (E : Match tm hook pkt interfaceName = Returned (false, frag =? 1)).
  { unfold Match. rewrite Hp. cbn [bind]. rewrite Z.eqb_refl. cbn [negb].
    rewrite Hf. cbn [bind].
    destruct (Z.eqb_spec frag 0) as [|_]; [contradiction|]. cbn [negb].
    destruct (frag =? 1); reflexivity. }
  rewrite E. split; [reflexivity|]. split.
  - intros ->. reflexivity.
  - intros Hgt. destruct (Z.eqb_spec frag 1); [lia | reflexivity].
Qed.

(** C4. For an unfragmented TCP packet whose transport header has not
    been parsed, [Match] returns (no match, hotdrop) as soon as a pull-up
    it needs reports absence: of the network header at the pre-routing
    hook, of the transport header behind it, or of the transport header at
    any other hook. *)
Theorem Match_insufficient_data tm hook pkt interfaceName :
  header.TransportProtocol (buffer.bytes (stack.NetworkHeader pkt))
    = Returned header.TCPProtocolNumber ->
  header.FragmentOffset (buffer.bytes (stack.NetworkHeader pkt)) = Returned 0 ->
  stack.TransportHeader pkt = None ->
  (hook = stack.Prerouting /\
   buffer.PullUp (stack.Data pkt) header.IPv4MinimumSize = None)
  \/ (hook = stack.Prerouting /\
      exists (ih : list byte) (length : Z),
        buffer.PullUp (stack.Data pkt) header.IPv4MinimumSize = Some ih /\
        header.HeaderLength ih = Returned length /\
        buffer.PullUp (stack.Data pkt) (length + header.TCPMinimumSize) = None)
  \/ (hook <> stack.Prerouting /\
      buffer.PullUp (stack.Data pkt) header.TCPMinimumSize = None) ->
  Match tm hook pkt interfaceName = Returned (false, true).
Proof.
  intros Hp Hf Hth H. rewrite (Match_unfragmented _ _ _ _ Hp Hf), Hth.
  destruct H as [[-> Hnone] | [(-> & ih & length & Hih & Hlen & Hnone) | [Hhook Hnone]]].
  - cbn [stack.Hook_eqb]. now rewrite Hnone.
  - cbn [stack.Hook_eqb]. rewrite Hih, Hlen. cbn [bind].
    unfold pullTransport. cbn [stack.set_NetworkHeader stack.Data]. now rewrite Hnone.
  - apply Hook_eqb_neq in Hhook. rewrite Hhook. unfold pullTransport.
    change (0 + header.TCPMinimumSize) with header.TCPMinimumSize. now rewrite Hnone.
Qed.

(** C5. For an unfragmented TCP packet, [Match] checks the ports of the
    transport header of the packet view when there is one.  When there is
    none, at the pre-routing hook it pulls up the first [IPv4MinimumSize]
    bytes of the packet data, reads the header length from them, and
    checks the ports of the [TCPMinimumSize] bytes that follow that length
    in the packet data; at any other hook it checks the ports of the first
    [TCPMinimumSize] bytes of the packet data. *)
Theorem Match_transport_header tm hook pkt interfaceName :
  header.TransportProtocol (buffer.bytes (stack.NetworkHeader pkt))
    = Returned header.TCPProtocolNumber ->
  header.FragmentOffset (buffer.bytes (stack.NetworkHeader pkt)) = Returned 0 ->
  (forall th : list byte,
      stack.TransportHeader pkt = Some th ->
      Match tm hook pkt interfaceName = checkPorts tm th)
  /\ (forall length : Z,
      stack.TransportHeader pkt = None ->
      hook = stack.Prerouting ->
      header.IPv4MinimumSize <= len (stack.Data pkt) ->
      header.HeaderLength (firstn (Z.to_nat header.IPv4MinimumSize) (stack.Data pkt))
        = Returned length ->
      0 <= length ->
      length + header.TCPMinimumSize <= len (stack.Data pkt) ->
      Match tm hook pkt interfaceName =
        checkPorts tm (firstn (Z.to_nat header.TCPMinimumSize)
                         (skipn (Z.to_nat length) (stack.Data pkt))))
  /\ (stack.TransportHeader pkt = None ->
      hook <> stack.Prerouting ->
      header.TCPMinimumSize <= len (stack.Data pkt) ->
      Match tm hook pkt interfaceName =
        checkPorts tm (firstn (Z.to_nat header.TCPMinimumSize) (stack.Data pkt))).
Proof.
  intros Hp Hf. split; [|split].
  - intros th Hth. apply (Match_at _ _ _ _ _ Hp Hf). now constructor.
  - intros length Hth Hhook Hip Hlen H0 Htcp.
    replace (firstn (Z.to_nat header.TCPMinimumSize)
               (skipn (Z.to_nat length) (stack.Data pkt)))
      with (skipn (Z.to_nat length)
              (firstn (Z.to_nat (length + header.TCPMinimumSize)) (stack.Data pkt))).
    + apply (Match_at _ _ _ _ _ Hp Hf).
      eapply transportHeaderPrerouting; eauto; apply PullUp_Some; auto.
    + rewrite skipn_firstn_comm. f_equal. unfold header.TCPMinimumSize. lia.
  - intros Hth Hhook Htcp. apply (Match_at _ _ _ _ _ Hp Hf).
    apply transportHeaderOther; auto. apply PullUp_Some; auto.
Qed.

(** C10. Whatever the hook, the packet and the interface name, a pair
    returned by [Match] is (false, false), (false, true) or (true, false):
    matched and hotdrop are never both set. *)
Theorem Match_never_matched_and_hotdrop tm hook pkt interfaceName (r : bool * bool) :
  Match tm hook pkt interfaceName = Returned r ->
  (r = (false, false) \/ r = (false, true) \/ r = (true, false))
  /\ r <> (true, true).
Proof.
  intros H.
  assert (Hshape : r = (false, false) \/ r = (false, true) \/ r = (true, false)).
  { revert H. unfold Match.
    destruct (header.TransportProtocol _) as [proto|]; cbn [bind]; [|discriminate].
    destruct (negb (proto =? _)); [intros [= <-]; auto|].
    destruct (header.FragmentOffset _) as [frag|]; cbn [bind]; [|discriminate].
    destruct (negb (frag =? 0)).
    { destruct (frag =? 1); intros [= <-]; auto. }
    destruct (stack.TransportHeader pkt) as [th|].
    { intros H. apply checkPorts_shape in H. tauto. }
    destruct (stack.Hook_eqb hook stack.Prerouting).
    - destruct (buffer.PullUp _ _) as [hdr|]; [|intros [= <-]; auto].
      destruct (header.HeaderLength hdr) as [length|]; cbn [bind]; [|discriminate].
      apply pullTransport_shape.
    - apply pullTransport_shape. }
  split; [exact Hshape|].
  destruct Hshape as [-> | [-> | ->]]; discriminate.
Qed.

End MatchProperties.

(** ** [Match] on the wire layout of RFC 791 and RFC 793 *)

Lemma Match_port_ranges_witness :
  Match (acc := header.wire) Samples.tm stack.Prerouting Samples.pktPrerouting "eth0"
    = Returned (true, false).
Proof.
  apply (proj1 (Match_port_ranges (acc := header.wire)
                  Samples.tm stack.Prerouting Samples.pktPrerouting "eth0"
                  Samples.tcpHeader 1500 80
                  eq_refl eq_refl
                  (transportHeaderPrerouting (acc := header.wire)
                     stack.Prerouting Samples.pktPrerouting
                     Samples.ipHeader (Samples.ipHeader ++ Samples.tcpHeader) 20
                     eq_refl eq_refl eq_refl eq_refl
                     ltac:(vm_compute; discriminate) eq_refl)
                  eq_refl eq_refl)).
Defined.

Lemma Match_fragment_witness :
  Match (acc := header.wire) Samples.tm stack.Input Samples.pktFragment "eth0"
    = Returned (false, false).
Proof.
  apply (proj2 (proj2 (Match_fragment (acc := header.wire)
                         Samples.tm stack.Input Samples.pktFragment "eth0" 8
                         eq_refl eq_refl ltac:(discriminate)))).
  reflexivity.
Defined.

Lemma Match_insufficient_data_witness :
  Match (acc := header.wire) Samples.tm stack.Input Samples.pktTruncated "eth0"
    = Returned (false, true).
Proof.
  apply (Match_insufficient_data (acc := header.wire)
           Samples.tm stack.Input Samples.pktTruncated "eth0" eq_refl eq_refl eq_refl).
  right. right. split; [discriminate | reflexivity].
Defined.

Lemma Match_transport_header_witness :
  Match (acc := header.wire) Samples.tm stack.Input Samples.pktParsed "eth0"
    = checkPorts (acc := header.wire) Samples.tm Samples.tcpHeader
  /\ Match (acc := header.wire) Samples.tm stack.Prerouting Samples.pktPrerouting "eth0"
    = checkPorts (acc := header.wire) Samples.tm Samples.tcpHeader
  /\ Match (acc := header.wire) Samples.tm stack.Input Samples.pktInput "eth0"
    = checkPorts (acc := header.wire) Samples.tm Samples.tcpHeader.
Proof.
  split; [|split].
  - apply (proj1 (Match_transport_header (acc := header.wire)
                    Samples.tm stack.Input Samples.pktParsed "eth0" eq_refl eq_refl)).
    reflexivity.
  - apply (proj1 (proj2 (Match_transport_header (acc := header.wire)
                    Samples.tm stack.Prerouting Samples.pktPrerouting "eth0"
                    eq_refl eq_refl)) 20);
      solve [reflexivity | vm_compute; discriminate].
  - apply (proj2 (proj2 (Match_transport_header (acc := header.wire)
                    Samples.tm stack.Input Samples.pktInput "eth0" eq_refl eq_refl)));
      solve [reflexivity | discriminate | vm_compute; discriminate].
Defined.

Lemma Match_never_matched_and_hotdrop_witness :
  Match (acc := header.wire) Samples.tm stack.Input Samples.pktParsed "eth0"
    = Returned (true, false)
  /\ (true, false) <> (true, true).
Proof.
  split; [reflexivity|].
  apply (proj2 (Match_never_matched_and_hotdrop (acc := header.wire)
                  Samples.tm stack.Input Samples.pktParsed "eth0" (true, false) eq_refl)).
Defined.

(** The properties of section 8 of the specification on the sample
    instance: source ports 1000 to 2000, destination port 80. *)
Example Match_sample_ports :
  let pkt (sp dp : list byte) :=
    {| stack.Data := [];
       stack.NetworkHeader := Some Samples.ipHeader;
       stack.TransportHeader := Some (sp ++ dp) |} in
  let run p := Match (acc := header.wire) Samples.tm stack.Input p "eth0" in
  run (pkt [x05; xdc] [x00; x50]) = Returned (true, false) /\
  run (pkt [x03; xe7] [x00; x50]) = Returned (false, false) /\
  run (pkt [x07; xd1] [x00; x50]) = Returned (false, false) /\
  run (pkt [x05; xdc] [x00; x51]) = Returned (false, false).
Proof. repeat split. Qed.

(** On the wire layout the fragment offset is a multiple of eight, so that
    it is never 1. *)
Lemma wire_FragmentOffset_multiple (b : list byte) (frag : Z) :
  header.wire_FragmentOffset b = Returned frag -> frag mod 8 = 0.
Proof.
  unfold header.wire_FragmentOffset, to_uint16.
  destruct (slice_from b 6) as [s|]; cbn [bind]; [|discriminate].
  destruct (ByteOrder.Uint16_be s) as [v|]; cbn [bind]; [|discriminate].
  intros H. replace frag with (Z.shiftl v 3 mod 65536) by congruence.
  rewrite Z.shiftl_mul_pow2 by lia. change (2 ^ 3) with 8.
  pose proof (Z.div_mod (v * 8) 65536 ltac:(lia)) as Hv.
  replace ((v * 8) mod 65536) with ((v - 8192 * (v * 8 / 65536)) * 8) by lia.
  apply Z.mod_mul. lia.
Qed.

Lemma wire_HeaderLength_range (b : list byte) (v : Z) :
  header.wire_HeaderLength b = Returned v -> 0 <= v < 256.
Proof.
  unfold header.wire_HeaderLength.
  destruct (index b 0) as [x|]; cbn [bind]; [|discriminate].
  intros H. replace v with ((Z.land (uint8_of x) 15 * 4) mod 256) by congruence.
  apply Z.mod_pos_bound. lia.
Qed.

(** A network header of fewer than ten bytes, an absent one among them,
    makes the first test of [Match] panic. *)
Lemma Match_short_network_header
    (tm : TCPMatcher) (hook : stack.Hook) (pkt : stack.PacketBuffer) (interfaceName : string) :
  len (buffer.bytes (stack.NetworkHeader pkt)) < 10 ->
  Match (acc := header.wire) tm hook pkt interfaceName = Panics IndexOutOfRange.
Proof.
  intros H. unfold Match.
  cbn [header.TransportProtocol header.wire]. unfold header.wire_TransportProtocol, index.
  destruct (nth_error _ 9) eqn:E; [|reflexivity].
  assert (nth_error (buffer.bytes (stack.NetworkHeader pkt)) 9 <> None) as Hn by congruence.
  apply nth_error_Some in Hn. unfold len in H. lia.
Qed.

(** C9. On a packet view whose network header is absent, whatever the
    hook (the pre-routing hook among them), the instance, the interface
    name, the packet data and the transport header, [Match] does not return
    a pair: its first inspection of the network header indexes past the end
    of the empty slice. *)
Theorem Match_panics_on_absent_network_header
    (tm : TCPMatcher) (hook : stack.Hook) (interfaceName : string)
    (data : buffer.VectorisedView) (transportHeader : buffer.View) :
  Match (acc := header.wire) tm hook
    {| stack.Data := data;
       stack.NetworkHeader := None;
       stack.TransportHeader := transportHeader |} interfaceName
  = Panics IndexOutOfRange.
Proof.
  apply Match_short_network_header.
  cbn [stack.NetworkHeader buffer.bytes].
  unfold len. cbn [List.length]. lia.
Qed.

(** At the pre-routing hook, with a complete IPv4 and TCP header in the
    packet data and the network header not parsed yet. *)
Example Match_sample_unparsed :
  Match (acc := header.wire) Samples.tm stack.Prerouting Samples.pktUnparsed "eth0"
    = Panics IndexOutOfRange.
Proof. reflexivity. Qed.

(** On the wire layout a fragment is never hotdropped: the offset is
    counted in bytes and is not 1. *)
Lemma Match_wire_fragment
    (tm : TCPMatcher) (hook : stack.Hook) (pkt : stack.PacketBuffer) (interfaceName : string)
    (frag : Z) :
  header.wire_TransportProtocol (buffer.bytes (stack.NetworkHeader pkt))
    = Returned header.TCPProtocolNumber ->
  header.wire_FragmentOffset (buffer.bytes (stack.NetworkHeader pkt)) = Returned frag ->
  frag <> 0 ->
  Match (acc := header.wire) tm hook pkt interfaceName = Returned (false, false).
Proof.
  intros Hp Hf Hnz.
  pose proof (wire_FragmentOffset_multiple _ _ Hf) as H8.
  unfold Match. cbn [header.TransportProtocol header.FragmentOffset header.wire].
  rewrite Hp. cbn [bind]. rewrite Z.eqb_refl. cbn [negb]. rewrite Hf. cbn [bind].
  destruct (Z.eqb_spec frag 0) as [|_]; [contradiction|]. cbn [negb].
  destruct (Z.eqb_spec frag 1) as [->|_]; [discriminate H8 | reflexivity].
Qed.

(** On the wire layout [Match] does return a pair when the caller has set
    the network header (ten bytes reach the protocol field) and the
    transport header, if set, holds its two ports. *)
Lemma checkPorts_total_wire (tm : TCPMatcher) (th : list byte) :
  4 <= len th ->
  exists r, checkPorts (acc := header.wire) tm th = Returned r.
Proof.
  unfold len. intros H.
  do 4 (destruct th as [|? th]; [cbn [List.length] in H; lia|]).
  unfold checkPorts.
  cbn [header.SourcePort header.DestinationPort header.wire].
  unfold header.wire_SourcePort, header.wire_DestinationPort.
  cbn [ByteOrder.Uint16_be bind].
  destruct (_ || _); [eexists; reflexivity|].
  rewrite slice_from_ok by (unfold len; cbn [List.length]; lia).
  change (Z.to_nat 2) with 2%nat. cbn [skipn ByteOrder.Uint16_be bind].
  destruct (_ || _); eexists; reflexivity.
Qed.

Lemma pullTransport_total_wire (tm : TCPMatcher) (pkt : stack.PacketBuffer) (length : Z) :
  0 <= length ->
  exists r, pullTransport (acc := header.wire) tm pkt length = Returned r.
Proof.
  intros H0. unfold pullTransport.
  destruct (buffer.PullUp _ _) as [hdr|] eqn:E; [|eexists; reflexivity].
  apply PullUp_length in E; [|unfold header.TCPMinimumSize; lia].
  unfold header.TCPMinimumSize in E.
  rewrite slice_from_ok by lia. cbn [bind].
  apply checkPorts_total_wire.
  unfold len in *. rewrite length_skipn. lia.
Qed.

Lemma Match_total_wire
    (tm : TCPMatcher) (hook : stack.Hook) (pkt : stack.PacketBuffer) (interfaceName : string) :
  10 <= len (buffer.bytes (stack.NetworkHeader pkt)) ->
  (forall th, stack.TransportHeader pkt = Some th -> 4 <= len th) ->
  exists r, Match (acc := header.wire) tm hook pkt interfaceName = Returned r.
Proof.
  intros Hnh Hth. unfold Match.
  remember (buffer.bytes (stack.NetworkHeader pkt)) as nh eqn:Enh. clear Enh.
  unfold len in Hnh.
  do 10 (destruct nh as [|? nh]; [cbn [List.length] in Hnh; lia|]).
  cbn [header.TransportProtocol header.FragmentOffset header.HeaderLength header.wire].
  unfold header.wire_TransportProtocol, header.wire_FragmentOffset.
  cbn [index nth_error bind].
  destruct (negb _); [eexists; reflexivity|].
  rewrite slice_from_ok by (unfold len; cbn [List.length]; lia).
  change (Z.to_nat 6) with 6%nat. cbn [skipn ByteOrder.Uint16_be bind].
  destruct (negb _); [destruct (_ =? 1); eexists; reflexivity|].
  destruct (stack.TransportHeader pkt) as [th|].
  { apply checkPorts_total_wire. now apply Hth. }
  destruct (stack.Hook_eqb hook stack.Prerouting).
  - destruct (buffer.PullUp _ _) as [hdr|] eqn:Ep; [|eexists; reflexivity].
    apply PullUp_length in Ep; [|unfold header.IPv4MinimumSize; lia].
    destruct hdr as [|x hdr]; [vm_compute in Ep; discriminate|].
    unfold header.wire_HeaderLength. cbn [index nth_error bind].
    apply pullTransport_total_wire. apply Z.mod_pos_bound. lia.
  - apply pullTransport_total_wire. lia.
Qed.

(** * Further properties *)

(** ** [Match]: what a result tells about the packet *)

Section MatchFurther.

Context {acc : header.Accessors}.

Implicit Types (tm : TCPMatcher) (hook : stack.Hook) (pkt : stack.PacketBuffer)
  (interfaceName : string).

Lemma checkPorts_true_inv tm (tcpHeader : list byte) (h : bool) :
  checkPorts tm tcpHeader = Returned (true, h) ->
  h = false /\
  exists sp dp : Z,
    header.SourcePort tcpHeader = Returned sp /\
    header.DestinationPort tcpHeader = Returned dp /\
    sourcePortStart tm <= sp <= sourcePortEnd tm /\
    destinationPortStart tm <= dp <= destinationPortEnd tm.
Proof.
  unfold checkPorts.
  destruct (header.SourcePort tcpHeader) as [sp|]; cbn [bind]; [|discriminate].
  destruct (Z.ltb_spec sp (sourcePortStart tm)); cbn [orb]; [discriminate|].
  destruct (Z.ltb_spec (sourcePortEnd tm) sp); [discriminate|].
  destruct (header.DestinationPort tcpHeader) as [dp|]; cbn [bind]; [|discriminate].
  destruct (Z.ltb_spec dp (destinationPortStart tm)); cbn [orb]; [discriminate|].
  destruct (Z.ltb_spec (destinationPortEnd tm) dp); [discriminate|].
  intros [= <-]. split; [reflexivity|]. exists sp, dp. repeat split; lia.
Qed.

Lemma slice_from_inv (b s : list byte) (lo : Z) :
  slice_from b lo = Returned s -> 0 <= lo <= len b /\ s = skipn (Z.to_nat lo) b.
Proof.
  unfold slice_from.
  destruct (Z.leb_spec 0 lo); cbn [andb]; [|discriminate].
  destruct (Z.leb_spec lo (len b)); [|discriminate].
  intros [= <-]. split; [lia | reflexivity].
Qed.

(** A match, taken apart: the packet is TCP, is no fragment, and its
    transport header is found and has both ports within the ranges. *)
Lemma Match_matched_inv tm hook pkt interfaceName (h : bool) :
  Match tm hook pkt interfaceName = Returned (true, h) ->
  h = false /\
  header.TransportProtocol (buffer.bytes (stack.NetworkHeader pkt))
    = Returned header.TCPProtocolNumber /\
  header.FragmentOffset (buffer.bytes (stack.NetworkHeader pkt)) = Returned 0 /\
  exists (th : list byte) (sp dp : Z),
    transportHeaderAt hook pkt th /\
    header.SourcePort th = Returned sp /\
    header.DestinationPort th = Returned dp /\
    sourcePortStart tm <= sp <= sourcePortEnd tm /\
    destinationPortStart tm <= dp <= destinationPortEnd tm.
Proof.
  unfold Match.
  destruct (header.TransportProtocol _) as [proto|]; cbn [bind]; [|discriminate].
  destruct (Z.eqb_spec proto header.TCPProtocolNumber) as [->|_]; cbn [negb];
    [|discriminate].
  destruct (header.FragmentOffset _) as [frag|]; cbn [bind]; [|discriminate].
  destruct (Z.eqb_spec frag 0) as [->|_]; cbn [negb];
    [|destruct (frag =? 1); discriminate].
  assert (Hfound : forall th : list byte,
             transportHeaderAt hook pkt th ->
             checkPorts tm th = Returned (true, h) ->
             h = false /\ Returned header.TCPProtocolNumber = Returned header.TCPProtocolNumber
             /\ Returned 0 = Returned 0 /\
             exists (th : list byte) (sp dp : Z),
               transportHeaderAt hook pkt th /\
               header.SourcePort th = Returned sp /\
               header.DestinationPort th = Returned dp /\
               sourcePortStart tm <= sp <= sourcePortEnd tm /\
               destinationPortStart tm <= dp <= destinationPortEnd tm).
  { intros th Hat Hc. apply checkPorts_true_inv in Hc as (-> & sp & dp & Hs & Hd & Hr).
    repeat split; try reflexivity. exists th, sp, dp. tauto. }
  destruct (stack.TransportHeader pkt) as [th|] eqn:Hth.
  { apply Hfound. now constructor. }
  destruct (stack.Hook_eqb hook stack.Prerouting) eqn:Hhook.
  - apply Hook_eqb_eq in Hhook.
    destruct (buffer.PullUp _ header.IPv4MinimumSize) as [ih|] eqn:Hih; [|discriminate].
    destruct (header.HeaderLength ih) as [length|] eqn:Hlen; cbn [bind]; [|discriminate].
    unfold pullTransport. cbn [stack.set_NetworkHeader stack.Data].
    destruct (buffer.PullUp _ (length + _)) as [hdr|] eqn:Hhdr; [|discriminate].
    destruct (slice_from hdr length) as [s|] eqn:Hs; cbn [bind]; [|discriminate].
    apply slice_from_inv in Hs as [Hl ->].
    apply Hfound. eapply transportHeaderPrerouting; eauto. lia.
  - apply Hook_eqb_neq in Hhook.
    unfold pullTransport. change (0 + header.TCPMinimumSize) with header.TCPMinimumSize.
    destruct (buffer.PullUp _ _) as [hdr|] eqn:Hhdr; [|discriminate].
    destruct (slice_from hdr 0) as [s|] eqn:Hs; cbn [bind]; [|discriminate].
    apply slice_from_inv in Hs as [_ ->]. change (Z.to_nat 0) with 0%nat. cbn [skipn].
    apply Hfound. now apply transportHeaderOther.
Qed.

Lemma pullTransport_hotdrop_inv tm pkt (length : Z) :
  pullTransport tm pkt length = Returned (false, true) ->
  buffer.PullUp (stack.Data pkt) (length + header.TCPMinimumSize) = None.
Proof.
  unfold pullTransport.
  destruct (buffer.PullUp _ _) as [hdr|]; [|reflexivity].
  destruct (slice_from hdr length) as [s|]; cbn [bind]; [|discriminate].
  intros H. apply checkPorts_shape in H as [H|H]; discriminate H.
Qed.

Lemma PullUp_app (data extra : list byte) (count : Z) :
  count <= len data ->
  buffer.PullUp (data ++ extra) count = buffer.PullUp data count.
Proof.
  intros H. unfold buffer.PullUp.
  assert (Hl : len (data ++ extra) = len data + len extra)
    by (unfold len; rewrite length_app; lia).
  destruct (Z.leb_spec count (len (data ++ extra))); [|unfold len in *; lia].
  destruct (Z.leb_spec count (len data)); [|lia].
  rewrite firstn_app.
  replace (Z.to_nat count - List.length data)%nat with 0%nat by (unfold len in *; lia).
  cbn [firstn]. now rewrite app_nil_r.
Qed.

(** X1. A packet whose network header declares another protocol than TCP
    is answered (no match, no hotdrop) before anything else is looked at:
    neither its fragment offset nor its transport header nor its data. *)
Theorem Match_other_protocol tm hook pkt interfaceName (proto : Z) :
  header.TransportProtocol (buffer.bytes (stack.NetworkHeader pkt)) = Returned proto ->
  proto <> header.TCPProtocolNumber ->
  Match tm hook pkt interfaceName = Returned (false, false).
Proof.
  intros Hp Hne. unfold Match. rewrite Hp. cbn [bind].
  destruct (Z.eqb_spec proto header.TCPProtocolNumber); [contradiction | reflexivity].
Qed.

(** X2. [Match] reports a match exactly for the unfragmented TCP packets
    whose transport header is found and has its source port and its
    destination port within the two closed ranges of the instance. *)
Theorem Match_matched_iff tm hook pkt interfaceName :
  Match tm hook pkt interfaceName = Returned (true, false) <->
  header.TransportProtocol (buffer.bytes (stack.NetworkHeader pkt))
    = Returned header.TCPProtocolNumber /\
  header.FragmentOffset (buffer.bytes (stack.NetworkHeader pkt)) = Returned 0 /\
  exists (th : list byte) (sp dp : Z),
    transportHeaderAt hook pkt th /\
    header.SourcePort th = Returned sp /\
    header.DestinationPort th = Returned dp /\
    sourcePortStart tm <= sp <= sourcePortEnd tm /\
    destinationPortStart tm <= dp <= destinationPortEnd tm.
Proof.
  split.
  - intros H. now apply Match_matched_inv in H as (_ & H).
  - intros (Hp & Hf & th & sp & dp & Hat & Hs & Hd & Hsr & Hdr).
    rewrite (Match_at _ _ _ _ _ Hp Hf Hat), (checkPorts_inRange _ _ _ _ Hs Hd).
    unfold inRange.
    destruct (Z.leb_spec (sourcePortStart tm) sp), (Z.leb_spec sp (sourcePortEnd tm)),
      (Z.leb_spec (destinationPortStart tm) dp), (Z.leb_spec dp (destinationPortEnd tm));
      try lia; reflexivity.
Qed.

(** X3. [Match] asks for a hotdrop in two situations only, and always in
    them: a TCP packet whose fragment offset is 1; an unfragmented TCP
    packet without a parsed transport header for which a pull-up of the
    packet data reports absence. *)
Theorem Match_hotdrop_iff tm hook pkt interfaceName :
  Match tm hook pkt interfaceName = Returned (false, true) <->
  header.TransportProtocol (buffer.bytes (stack.NetworkHeader pkt))
    = Returned header.TCPProtocolNumber /\
  (header.FragmentOffset (buffer.bytes (stack.NetworkHeader pkt)) = Returned 1
   \/
   header.FragmentOffset (buffer.bytes (stack.NetworkHeader pkt)) = Returned 0 /\
   stack.TransportHeader pkt = None /\
   ((hook = stack.Prerouting /\
     buffer.PullUp (stack.Data pkt) header.IPv4MinimumSize = None)
    \/ (hook = stack.Prerouting /\
        exists (ih : list byte) (length : Z),
          buffer.PullUp (stack.Data pkt) header.IPv4MinimumSize = Some ih /\
          header.HeaderLength ih = Returned length /\
          buffer.PullUp (stack.Data pkt) (length + header.TCPMinimumSize) = None)
    \/ (hook <> stack.Prerouting /\
        buffer.PullUp (stack.Data pkt) header.TCPMinimumSize = None))).
Proof.
  split.
  - unfold Match.
    destruct (header.TransportProtocol _) as [proto|]; cbn [bind]; [|discriminate].
    destruct (Z.eqb_spec proto header.TCPProtocolNumber) as [->|_]; cbn [negb];
      [|discriminate].
    destruct (header.FragmentOffset _) as [frag|]; cbn [bind]; [|discriminate].
    destruct (Z.eqb_spec frag 0) as [->|_]; cbn [negb].
    + destruct (stack.TransportHeader pkt) as [th|].
      { intros H. apply checkPorts_shape in H as [H|H]; discriminate H. }
      destruct (stack.Hook_eqb hook stack.Prerouting) eqn:Hhook.
      * apply Hook_eqb_eq in Hhook.
        destruct (buffer.PullUp _ header.IPv4MinimumSize) as [ih|] eqn:Hih;
          [|intros _; split; [reflexivity|]; right; auto].
        destruct (header.HeaderLength ih) as [length|] eqn:Hlen; cbn [bind];
          [|discriminate].
        intros H. apply pullTransport_hotdrop_inv in H.
        cbn [stack.set_NetworkHeader stack.Data] in H.
        split; [reflexivity|]. right. repeat split.
        right. left. split; [assumption|]. exists ih, length. auto.
      * apply Hook_eqb_neq in Hhook. intros H. apply pullTransport_hotdrop_inv in H.
        split; [reflexivity|]. right. repeat split. right. right. auto.
    + destruct (Z.eqb_spec frag 1) as [->|_]; [intros _; auto | discriminate].
  - intros (Hp & [Hf | (Hf & Hth & Hcase)]).
    + unfold Match. rewrite Hp. cbn [bind]. rewrite Z.eqb_refl. cbn [negb].
      rewrite Hf. reflexivity.
    + rewrite (Match_unfragmented _ _ _ _ Hp Hf), Hth.
      destruct Hcase
        as [[-> Hnone] | [(-> & ih & length & Hih & Hlen & Hnone) | [Hhook Hnone]]].
      * cbn [stack.Hook_eqb]. now rewrite Hnone.
      * cbn [stack.Hook_eqb]. rewrite Hih, Hlen. cbn [bind].
        unfold pullTransport. cbn [stack.set_NetworkHeader stack.Data]. now rewrite Hnone.
      * apply Hook_eqb_neq in Hhook. rewrite Hhook. unfold pullTransport.
        change (0 + header.TCPMinimumSize) with header.TCPMinimumSize. now rewrite Hnone.
Qed.

(** X4. A packet matched by an instance is matched by every instance whose
    two ranges contain those of the first. *)
Theorem Match_widen tm tm' hook pkt interfaceName :
  sourcePortStart tm' <= sourcePortStart tm ->
  sourcePortEnd tm <= sourcePortEnd tm' ->
  destinationPortStart tm' <= destinationPortStart tm ->
  destinationPortEnd tm <= destinationPortEnd tm' ->
  Match tm hook pkt interfaceName = Returned (true, false) ->
  Match tm' hook pkt interfaceName = Returned (true, false).
Proof.
  intros H1 H2 H3 H4 H.
  apply Match_matched_inv in H
    as (_ & Hp & Hf & th & sp & dp & Hat & Hs & Hd & Hsr & Hdr).
  rewrite (Match_at _ _ _ _ _ Hp Hf Hat), (checkPorts_inRange _ _ _ _ Hs Hd).
  unfold inRange.
  destruct (Z.leb_spec (sourcePortStart tm') sp), (Z.leb_spec sp (sourcePortEnd tm')),
    (Z.leb_spec (destinationPortStart tm') dp), (Z.leb_spec dp (destinationPortEnd tm'));
    try lia; reflexivity.
Qed.

(** X5. An instance with an inverted range, source or destination, matches
    no packet at any hook. *)
Theorem Match_inverted_never_matches tm hook pkt interfaceName (h : bool) :
  sourcePortEnd tm < sourcePortStart tm \/
  destinationPortEnd tm < destinationPortStart tm ->
  Match tm hook pkt interfaceName <> Returned (true, h).
Proof.
  intros Hinv H.
  apply Match_matched_inv in H as (_ & _ & _ & th & sp & dp & _ & _ & _ & Hsr & Hdr).
  lia.
Qed.

(** X6. At the pre-routing hook, once the first [IPv4MinimumSize] bytes of
    the data are there and give the header length, [Match] answers as it
    does at any later hook on the same packet with the data starting behind
    the network header. *)
Theorem Match_prerouting_as_later_hook tm hook pkt interfaceName
    (ih : list byte) (length : Z) :
  stack.TransportHeader pkt = None ->
  buffer.PullUp (stack.Data pkt) header.IPv4MinimumSize = Some ih ->
  header.HeaderLength ih = Returned length ->
  0 <= length ->
  hook <> stack.Prerouting ->
  Match tm stack.Prerouting pkt interfaceName =
  Match tm hook
    {| stack.Data := skipn (Z.to_nat length) (stack.Data pkt);
       stack.NetworkHeader := stack.NetworkHeader pkt;
       stack.TransportHeader := None |} interfaceName.
Proof.
  intros Hth Hih Hlen H0 Hhook. unfold Match.
  cbn [stack.NetworkHeader stack.TransportHeader stack.Data stack.Hook_eqb].
  destruct (header.TransportProtocol _) as [proto|]; cbn [bind]; [|reflexivity].
  destruct (negb (proto =? _)); [reflexivity|].
  destruct (header.FragmentOffset _) as [frag|]; cbn [bind]; [|reflexivity].
  destruct (negb (frag =? 0)); [reflexivity|].
  rewrite Hth, Hih, Hlen. cbn [bind].
  apply Hook_eqb_neq in Hhook. rewrite Hhook.
  unfold pullTransport. cbn [stack.set_NetworkHeader stack.Data].
  change (0 + header.TCPMinimumSize) with header.TCPMinimumSize.
  unfold buffer.PullUp, header.TCPMinimumSize.
  set (data := stack.Data pkt).
  assert (Hsk : len (skipn (Z.to_nat length) data) = Z.max 0 (len data - length))
    by (unfold len; rewrite length_skipn; lia).
  destruct (Z.leb_spec (length + 20) (len data)), (Z.leb_spec 20 (len (skipn (Z.to_nat length) data)));
    try lia; [|reflexivity].
  rewrite !slice_from_ok
    by (unfold len in *; rewrite ?length_firstn, ?length_skipn; lia).
  rewrite skipn_firstn_comm. change (Z.to_nat 0) with 0%nat. cbn [skipn].
  replace (Z.to_nat (length + 20) - Z.to_nat length)%nat with (Z.to_nat 20) by lia.
  reflexivity.
Qed.

(** X7. Once the packet data holds the bytes that [Match] pulls up, what
    follows them is never looked at. *)
Theorem Match_ignores_payload tm hook interfaceName
    (networkHeader : buffer.View) (data extra : list byte) :
  header.IPv4MinimumSize <= len data ->
  (hook = stack.Prerouting ->
   forall length : Z,
     header.HeaderLength (firstn (Z.to_nat header.IPv4MinimumSize) data) = Returned length ->
     length + header.TCPMinimumSize <= len data) ->
  Match tm hook
    {| stack.Data := data ++ extra; stack.NetworkHeader := networkHeader;
       stack.TransportHeader := None |} interfaceName
  = Match tm hook
    {| stack.Data := data; stack.NetworkHeader := networkHeader;
       stack.TransportHeader := None |} interfaceName.
Proof.
  intros H20 Hpre. unfold Match.
  cbn [stack.NetworkHeader stack.TransportHeader stack.Data].
  destruct (header.TransportProtocol _) as [proto|]; cbn [bind]; [|reflexivity].
  destruct (negb (proto =? _)); [reflexivity|].
  destruct (header.FragmentOffset _) as [frag|]; cbn [bind]; [|reflexivity].
  destruct (negb (frag =? 0)); [reflexivity|].
  destruct (stack.Hook_eqb hook stack.Prerouting) eqn:Hhook.
  - apply Hook_eqb_eq in Hhook. specialize (Hpre Hhook).
    rewrite (PullUp_app data extra _ H20).
    destruct (buffer.PullUp data header.IPv4MinimumSize) as [ih|] eqn:Hih; [|reflexivity].
    apply PullUp_Some in Hih as [_ ->].
    destruct (header.HeaderLength _) as [length|] eqn:Hlen; cbn [bind]; [|reflexivity].
    unfold pullTransport. cbn [stack.set_NetworkHeader stack.Data].
    now rewrite (PullUp_app data extra _ (Hpre length eq_refl)).
  - unfold pullTransport. cbn [stack.Data].
    rewrite (PullUp_app data extra (0 + header.TCPMinimumSize)); [reflexivity|].
    unfold header.TCPMinimumSize, header.IPv4MinimumSize in *. lia.
Qed.

(** X8. The source port is checked first: when it lies outside its range
    the answer is (no match, no hotdrop) and the destination port is not
    read, so that a transport header too short to hold one does no harm. *)
Theorem Match_source_port_first tm hook pkt interfaceName (th : list byte) (sp : Z) :
  header.TransportProtocol (buffer.bytes (stack.NetworkHeader pkt))
    = Returned header.TCPProtocolNumber ->
  header.FragmentOffset (buffer.bytes (stack.NetworkHeader pkt)) = Returned 0 ->
  transportHeaderAt hook pkt th ->
  header.SourcePort th = Returned sp ->
  sp < sourcePortStart tm \/ sourcePortEnd tm < sp ->
  Match tm hook pkt interfaceName = Returned (false, false).
Proof.
  intros Hp Hf Hat Hs Hout.
  rewrite (Match_at _ _ _ _ _ Hp Hf Hat). unfold checkPorts. rewrite Hs. cbn [bind].
  destruct (Z.ltb_spec sp (sourcePortStart tm)); [reflexivity|].
  destruct (Z.ltb_spec (sourcePortEnd tm) sp); [reflexivity | lia].
Qed.

End MatchFurther.

(** ** [unmarshal] and [marshal]: safety, invariant, re-encoding *)

Lemma uint8_of_zero (b : byte) : uint8_of b = 0 <-> b = x00.
Proof.
  split; [|intros ->; reflexivity].
  unfold uint8_of. intros H.
  assert (E : Byte.to_N b = 0%N) by lia.
  pose proof (Byte.of_to_N b) as Hb. rewrite E in Hb.
  change (Byte.of_N 0) with (Some x00) in Hb. congruence.
Qed.

Lemma to_byte_uint8_of (b : byte) : to_byte (uint8_of b) = b.
Proof.
  pose proof (uint8_of_range b) as Hr.
  unfold to_byte. rewrite Z.mod_small by exact Hr.
  unfold uint8_of. rewrite N2Z.id, Byte.of_to_N. reflexivity.
Qed.

Lemma le16_range (b0 b1 : byte) :
  is_uint16 (Z.lor (uint8_of b0) (Z.shiftl (uint8_of b1) 8)).
Proof.
  pose proof (uint8_of_range b0). pose proof (uint8_of_range b1).
  rewrite lor_shiftl_8 by assumption. unfold is_uint16. lia.
Qed.

Lemma PutUint16_le_Uint16 (b0 b1 : byte) :
  ByteOrder.PutUint16_le (Z.lor (uint8_of b0) (Z.shiftl (uint8_of b1) 8)) = [b0; b1].
Proof.
  pose proof (uint8_of_range b0) as H0. pose proof (uint8_of_range b1) as H1.
  unfold ByteOrder.PutUint16_le.
  rewrite lor_shiftl_8 by assumption.
  rewrite Z.shiftr_div_pow2 by lia. change (2 ^ 8) with 256.
  replace ((uint8_of b0 + 256 * uint8_of b1) / 256) with (uint8_of b1)
    by (apply (Z.div_unique_pos _ 256 (uint8_of b1) (uint8_of b0)); lia).
  rewrite to_byte_uint8_of.
  f_equal. unfold to_byte at 1.
  replace ((uint8_of b0 + 256 * uint8_of b1) mod 256) with (uint8_of b0)
    by (apply (Z.mod_unique_pos _ 256 (uint8_of b1) (uint8_of b0)); lia).
  unfold uint8_of at 1. rewrite N2Z.id, Byte.of_to_N. reflexivity.
Qed.

(** [unmarshal] on twelve bytes and a tail, in terms of the bytes. *)
Lemma unmarshal_bytes (b0 b1 b2 b3 b4 b5 b6 b7 b8 b9 b10 b11 : byte) (tl : list byte)
    (filter : stack.IPHeaderFilter) :
  unmarshal ([b0; b1; b2; b3; b4; b5; b6; b7; b8; b9; b10; b11] ++ tl) filter =
    if negb (uint8_of b8 =? 0) || negb (uint8_of b9 =? 0)
       || negb (uint8_of b10 =? 0) || negb (uint8_of b11 =? 0)
    then Returned (Err ErrUnsupportedFlags)
    else if negb (stack.Protocol filter =? header.TCPProtocolNumber)
    then Returned (Err (ErrProtocol header.TCPProtocolNumber))
    else Returned (Ok (MatcherTCP
           {| sourcePortStart := Z.lor (uint8_of b0) (Z.shiftl (uint8_of b1) 8);
              sourcePortEnd := Z.lor (uint8_of b2) (Z.shiftl (uint8_of b3) 8);
              destinationPortStart := Z.lor (uint8_of b4) (Z.shiftl (uint8_of b5) 8);
              destinationPortEnd := Z.lor (uint8_of b6) (Z.shiftl (uint8_of b7) 8) |})).
Proof.
  assert (Hlen : linux.SizeOfXTTCP
                 <= len ([b0; b1; b2; b3; b4; b5; b6; b7; b8; b9; b10; b11] ++ tl))
    by (unfold linux.SizeOfXTTCP, len; rewrite length_app; cbn [List.length]; lia).
  rewrite (unmarshal_decoded _ filter _ Hlen
             (Unmarshal_XTTCP_bytes b0 b1 b2 b3 b4 b5 b6 b7 b8 b9 b10 b11)).
  reflexivity.
Qed.

(** X9. [unmarshal] does not panic, whatever the buffer and the filter: the
    slice [buf[:SizeOfXTTCP]] is taken behind the test of the length, and
    the codec then finds all the bytes it reads. *)
Theorem unmarshal_never_panics (buf : list byte) (filter : stack.IPHeaderFilter) :
  exists r : result, unmarshal buf filter = Returned r.
Proof.
  destruct (Z.lt_ge_cases (len buf) linux.SizeOfXTTCP) as [Hlt|Hge].
  - eexists. now apply unmarshal_short.
  - destruct (buf_at_least_12 buf Hge)
      as (b0 & b1 & b2 & b3 & b4 & b5 & b6 & b7 & b8 & b9 & b10 & b11 & tl & ->).
    rewrite unmarshal_bytes.
    destruct (_ || _); [eexists; reflexivity|].
    destruct (negb _); eexists; reflexivity.
Qed.

(** X10. What [unmarshal] returns without error is a TCP matcher whose
    four bounds are [uint16] values, read in little-endian order from the
    first eight bytes of the buffer. *)
Theorem unmarshal_returns_valid
    (buf : list byte) (filter : stack.IPHeaderFilter) (m : Matcher) :
  unmarshal buf filter = Returned (Ok m) ->
  exists tm : TCPMatcher,
    m = MatcherTCP tm /\ valid tm /\
    ByteOrder.Uint16_le (firstn 2 buf) = Returned (sourcePortStart tm) /\
    ByteOrder.Uint16_le (firstn 2 (skipn 2 buf)) = Returned (sourcePortEnd tm) /\
    ByteOrder.Uint16_le (firstn 2 (skipn 4 buf)) = Returned (destinationPortStart tm) /\
    ByteOrder.Uint16_le (firstn 2 (skipn 6 buf)) = Returned (destinationPortEnd tm).
Proof.
  intros H.
  destruct (Z.lt_ge_cases (len buf) linux.SizeOfXTTCP) as [Hlt|Hge].
  { rewrite (unmarshal_short _ _ Hlt) in H. discriminate. }
  destruct (buf_at_least_12 buf Hge)
    as (b0 & b1 & b2 & b3 & b4 & b5 & b6 & b7 & b8 & b9 & b10 & b11 & tl & ->).
  rewrite unmarshal_bytes in H.
  destruct (_ || _); [discriminate|].
  destruct (negb _); [discriminate|].
  injection H as <-. eexists. split; [reflexivity|].
  split; [repeat split; apply le16_range|].
  repeat split.
Qed.

(** X11. [unmarshal] returns an instance exactly when the buffer holds at
    least [SizeOfXTTCP] bytes, its bytes 8 to 11 are zero and the protocol
    of the filter is TCP. *)
Theorem unmarshal_ok_iff (buf : list byte) (filter : stack.IPHeaderFilter) :
  (exists m : Matcher, unmarshal buf filter = Returned (Ok m)) <->
  linux.SizeOfXTTCP <= len buf /\
  nth 8 buf x01 = x00 /\ nth 9 buf x01 = x00 /\
  nth 10 buf x01 = x00 /\ nth 11 buf x01 = x00 /\
  stack.Protocol filter = header.TCPProtocolNumber.
Proof.
  destruct (Z.lt_ge_cases (len buf) linux.SizeOfXTTCP) as [Hlt|Hge].
  { rewrite (unmarshal_short _ _ Hlt). split.
    - intros [m H]. discriminate.
    - intros [H _]. lia. }
  destruct (buf_at_least_12 buf Hge)
    as (b0 & b1 & b2 & b3 & b4 & b5 & b6 & b7 & b8 & b9 & b10 & b11 & tl & E).
  subst buf.
  pose proof (unmarshal_bytes b0 b1 b2 b3 b4 b5 b6 b7 b8 b9 b10 b11 tl filter) as Hu.
  cbn [nth app] in Hu |- *.
  rewrite <- !uint8_of_zero.
  destruct (Z.eqb_spec (uint8_of b8) 0), (Z.eqb_spec (uint8_of b9) 0),
    (Z.eqb_spec (uint8_of b10) 0), (Z.eqb_spec (uint8_of b11) 0);
    cbn [negb orb] in Hu;
    try (split; [intros [m H]; rewrite Hu in H; discriminate | tauto]).
  destruct (Z.eqb_spec (stack.Protocol filter) header.TCPProtocolNumber);
    cbn [negb] in Hu.
  - split; [tauto | intros _; eexists; exact Hu].
  - split; [intros [m H]; rewrite Hu in H; discriminate | tauto].
Qed.

(** X12. Marshalling what [unmarshal] returned never panics and gives the
    block back in canonical form: behind the generic match header come the
    first eight bytes of the buffer, the four zero flag bytes and four bytes
    of padding. *)
Theorem marshal_unmarshal_block
    (buf : list byte) (filter : stack.IPHeaderFilter) (m : Matcher) :
  unmarshal buf filter = Returned (Ok m) ->
  exists bs : list byte,
    marshal m = Returned bs /\
    len bs = 48 /\
    skipn (Z.to_nat linux.SizeOfXTEntryMatch) bs = firstn 8 buf ++ repeat x00 8 /\
    firstn (Z.to_nat linux.SizeOfXTTCP) (skipn (Z.to_nat linux.SizeOfXTEntryMatch) bs)
      = firstn (Z.to_nat linux.SizeOfXTTCP) buf.
Proof.
  intros H.
  destruct (Z.lt_ge_cases (len buf) linux.SizeOfXTTCP) as [Hlt|Hge].
  { rewrite (unmarshal_short _ _ Hlt) in H. discriminate. }
  destruct (buf_at_least_12 buf Hge)
    as (b0 & b1 & b2 & b3 & b4 & b5 & b6 & b7 & b8 & b9 & b10 & b11 & tl & ->).
  rewrite unmarshal_bytes in H.
  destruct (Z.eqb_spec (uint8_of b8) 0) as [E8|]; [|discriminate].
  destruct (Z.eqb_spec (uint8_of b9) 0) as [E9|]; [|discriminate].
  destruct (Z.eqb_spec (uint8_of b10) 0) as [E10|]; [|discriminate].
  destruct (Z.eqb_spec (uint8_of b11) 0) as [E11|]; [|discriminate].
  apply uint8_of_zero in E8, E9, E10, E11. subst b8 b9 b10 b11.
  cbn [negb orb] in H.
  destruct (negb _); [discriminate|].
  assert (Hm : m = MatcherTCP
            {| sourcePortStart := Z.lor (uint8_of b0) (Z.shiftl (uint8_of b1) 8);
               sourcePortEnd := Z.lor (uint8_of b2) (Z.shiftl (uint8_of b3) 8);
               destinationPortStart := Z.lor (uint8_of b4) (Z.shiftl (uint8_of b5) 8);
               destinationPortEnd := Z.lor (uint8_of b6) (Z.shiftl (uint8_of b7) 8) |})
    by congruence.
  subst m. clear H.
  eexists. split; [apply marshal_layout|].
  split; [reflexivity|].
  cbn [sourcePortStart sourcePortEnd destinationPortStart destinationPortEnd].
  set (blk := binary.Marshal_XTTCP [] _).
  change (skipn (Z.to_nat linux.SizeOfXTEntryMatch) _) with (blk ++ repeat x00 4).
  subst blk. unfold binary.Marshal_XTTCP.
  cbn [linux.SourcePortStart linux.SourcePortEnd linux.DestinationPortStart
       linux.DestinationPortEnd linux.Option linux.FlagMask linux.FlagCompare
       linux.InverseFlags].
  rewrite !PutUint16_le_Uint16.
  split; reflexivity.
Qed.

(** ** The further properties on the sample data *)

Lemma Match_other_protocol_witness :
  Match (acc := header.wire) Samples.tm stack.Prerouting MoreSamples.pktUDP "eth0"
    = Returned (false, false).
Proof.
  apply (Match_other_protocol (acc := header.wire)
           Samples.tm stack.Prerouting MoreSamples.pktUDP "eth0" 17 eq_refl).
  discriminate.
Defined.

Lemma Match_matched_iff_witness :
  header.SourcePort (Accessors := header.wire) Samples.tcpHeader = Returned 1500 /\
  header.DestinationPort (Accessors := header.wire) Samples.tcpHeader = Returned 80 /\
  Match (acc := header.wire) Samples.tm stack.Input Samples.pktInput "eth0"
    = Returned (true, false).
Proof.
  split; [reflexivity|]. split; [reflexivity|].
  apply (proj2 (Match_matched_iff (acc := header.wire)
                  Samples.tm stack.Input Samples.pktInput "eth0")).
  split; [reflexivity|]. split; [reflexivity|].
  exists Samples.tcpHeader, 1500, 80.
  split.
  - apply (transportHeaderOther (acc := header.wire) stack.Input Samples.pktInput
             Samples.tcpHeader eq_refl); [discriminate | reflexivity].
  - repeat split; cbn; lia.
Defined.

Lemma Match_hotdrop_iff_witness :
  Match (acc := header.wire) Samples.tm stack.Input Samples.pktTruncated "eth0"
    = Returned (false, true).
Proof.
  apply (proj2 (Match_hotdrop_iff (acc := header.wire)
                  Samples.tm stack.Input Samples.pktTruncated "eth0")).
  split; [reflexivity|]. right. split; [reflexivity|]. split; [reflexivity|].
  right. right. split; [discriminate | reflexivity].
Defined.

Lemma Match_widen_witness :
  Match (acc := header.wire) MoreSamples.tmWide stack.Prerouting Samples.pktPrerouting "eth0"
    = Returned (true, false).
Proof.
  apply (Match_widen (acc := header.wire) Samples.tm MoreSamples.tmWide
           stack.Prerouting Samples.pktPrerouting "eth0");
    solve [cbn; lia | reflexivity].
Defined.

Lemma Match_inverted_never_matches_witness :
  Match (acc := header.wire) MoreSamples.tmInverted stack.Input Samples.pktParsed "eth0"
    <> Returned (true, false).
Proof.
  apply (Match_inverted_never_matches (acc := header.wire) MoreSamples.tmInverted
           stack.Input Samples.pktParsed "eth0" false).
  left. cbn. lia.
Defined.

Lemma Match_prerouting_as_later_hook_witness :
  Match (acc := header.wire) Samples.tm stack.Prerouting Samples.pktPrerouting "eth0"
  = Match (acc := header.wire) Samples.tm stack.Input Samples.pktInput "eth0".
Proof.
  apply (Match_prerouting_as_later_hook (acc := header.wire) Samples.tm stack.Input
           Samples.pktPrerouting "eth0" Samples.ipHeader 20 eq_refl eq_refl eq_refl).
  - lia.
  - discriminate.
Defined.

Lemma Match_ignores_payload_witness :
  Match (acc := header.wire) Samples.tm stack.Prerouting
    {| stack.Data := (Samples.ipHeader ++ Samples.tcpHeader) ++ MoreSamples.payload;
       stack.NetworkHeader := Some Samples.ipHeader;
       stack.TransportHeader := None |} "eth0"
  = Match (acc := header.wire) Samples.tm stack.Prerouting Samples.pktPrerouting "eth0".
Proof.
  apply (Match_ignores_payload (acc := header.wire) Samples.tm stack.Prerouting "eth0"
           (Some Samples.ipHeader) (Samples.ipHeader ++ Samples.tcpHeader)
           MoreSamples.payload).
  - vm_compute. discriminate.
  - intros _ length H. vm_compute in H.
    replace length with 20 by congruence. vm_compute. discriminate.
Defined.

Lemma Match_source_port_first_witness :
  header.DestinationPort (Accessors := header.wire) [x03; xe7] = Panics IndexOutOfRange /\
  Match (acc := header.wire) Samples.tm stack.Input MoreSamples.pktSourcePortOnly "eth0"
    = Returned (false, false).
Proof.
  split; [reflexivity|].
  apply (Match_source_port_first (acc := header.wire) Samples.tm stack.Input
           MoreSamples.pktSourcePortOnly "eth0" [x03; xe7] 999 eq_refl eq_refl).
  - now constructor.
  - reflexivity.
  - left. cbn. lia.
Defined.

Lemma unmarshal_returns_valid_witness :
  exists tm : TCPMatcher,
    MatcherTCP Samples.tm = MatcherTCP tm /\ valid tm /\
    ByteOrder.Uint16_le (firstn 2 Samples.block) = Returned (sourcePortStart tm) /\
    ByteOrder.Uint16_le (firstn 2 (skipn 2 Samples.block)) = Returned (sourcePortEnd tm) /\
    ByteOrder.Uint16_le (firstn 2 (skipn 4 Samples.block))
      = Returned (destinationPortStart tm) /\
    ByteOrder.Uint16_le (firstn 2 (skipn 6 Samples.block))
      = Returned (destinationPortEnd tm).
Proof.
  apply (unmarshal_returns_valid Samples.block Samples.filterTCP (MatcherTCP Samples.tm)).
  reflexivity.
Defined.

Lemma unmarshal_ok_iff_witness :
  (exists m, unmarshal Samples.block Samples.filterTCP = Returned (Ok m)) /\
  ~ (exists m, unmarshal Samples.blockFlagged Samples.filterTCP = Returned (Ok m)).
Proof.
  split.
  - apply (proj2 (unmarshal_ok_iff Samples.block Samples.filterTCP)).
    split; [vm_compute; discriminate|]. repeat split.
  - intros H.
    apply (proj1 (unmarshal_ok_iff Samples.blockFlagged Samples.filterTCP)) in H.
    destruct H as (_ & _ & _ & _ & H & _). discriminate H.
Defined.

Lemma marshal_unmarshal_block_witness :
  exists bs : list byte,
    marshal (MatcherTCP Samples.tm) = Returned bs /\
    len bs = 48 /\
    skipn (Z.to_nat linux.SizeOfXTEntryMatch) bs
      = firstn 8 (Samples.block ++ MoreSamples.payload) ++ repeat x00 8 /\
    firstn (Z.to_nat linux.SizeOfXTTCP) (skipn (Z.to_nat linux.SizeOfXTEntryMatch) bs)
      = firstn (Z.to_nat linux.SizeOfXTTCP) (Samples.block ++ MoreSamples.payload).
Proof.
  apply (marshal_unmarshal_block (Samples.block ++ MoreSamples.payload) Samples.filterTCP
           (MatcherTCP Samples.tm)).
  reflexivity.
Defined.
